(** * pysnirf2, gen/footer.py: hand-written extensions of the generated classes

    A shallow embedding of the methods that [gen/footer.py] adds to the
    generated SNIRF interface classes:

    - [MetaDataTags.add] and [MetaDataTags.remove];
    - the [_validate] overrides of [StimElement], [DataElement], [Probe]
      and [Snirf];
    - [Snirf.__getitem__].

    Python objects are mutated in place; here every method takes the state
    it reads and returns the state it leaves behind together with its
    outcome, an exception or a value. *)

From stdpp Require Import gmap strings list fin_maps.
From Stdlib Require Import ZArith Lia.

#[local] Set Warnings "-clear-no-such-hyp".

Local Open Scope string_scope.
Local Open Scope list_scope.

(** ** Python exceptions and values *)

(** The exceptions that the code of [footer.py] raises itself or provokes
    in the interpreter.  Those raised with an explicit message carry it. *)
Inductive Exn : Type :=
| ValueError (msg : string)
| AttributeError (msg : string)
| KeyError (key : string)
| TypeError
| IndexError.

(** The Python values that can be passed as a tag name or a tag value, or
    that sit in an object's [__dict__]. *)
#[warnings="-register-all"]
Inductive PyVal : Type :=
| PyNone
| PyInt (z : Z)
| PyStr (s : string)
| PyList (l : list PyVal).

(** [str(type(v))] *)
Definition str_type (v : PyVal) : string :=
  match v with
  | PyNone => "<class 'NoneType'>"
  | PyInt _ => "<class 'int'>"
  | PyStr _ => "<class 'str'>"
  | PyList _ => "<class 'list'>"
  end.

(** [n in t] for two [str]: [n] occurs in [t] as a substring. *)
Fixpoint str_contains (n t : string) : bool :=
  String.prefix n t ||
  match t with
  | EmptyString => false
  | String _ t' => str_contains n t'
  end.

(** [n == v] for a [str] [n]. *)
Definition str_eq (n : string) (v : PyVal) : bool :=
  match v with
  | PyStr t => bool_decide (n = t)
  | _ => false
  end.

(** [n in c] for a [str] [n]: membership in a list, substring of a string,
    [TypeError] on a value that is not a container. *)
Definition py_in (n : string) (c : PyVal) : Exn + bool :=
  match c with
  | PyList l => inr (existsb (str_eq n) l)
  | PyStr t => inr (str_contains n t)
  | PyNone | PyInt _ => inl TypeError
  end.

(** ** MetaDataTags *)

Module MetaDataTags.

(** The instance dictionary [self.__dict__].  [_unspecified_names] is an
    ordinary instance attribute: [self._unspecified_names] reads the entry
    of that name in the same dictionary that [add] and [remove] write. *)
Abbreviation Obj := (gmap string PyVal).

Definition registry_attr : string := "_unspecified_names".

(** [self._unspecified_names] *)
Definition get_unspecified_names (d : Obj) : Exn + PyVal :=
  match d !! registry_attr with
  | Some v => inr v
  | None =>
      inl (AttributeError
             "'MetaDataTags' object has no attribute '_unspecified_names'")
  end.

(** [c.append(PyStr n)] *)
Definition py_append (c : PyVal) (n : string) : Exn + PyVal :=
  match c with
  | PyList l => inr (PyList (l ++ [PyStr n]))
  | PyNone => inl (AttributeError "'NoneType' object has no attribute 'append'")
  | PyInt _ => inl (AttributeError "'int' object has no attribute 'append'")
  | PyStr _ => inl (AttributeError "'str' object has no attribute 'append'")
  end.

(** [MetaDataTags.add(self, name, value)].  The assignment
    [self.__dict__[name] = value] is a dictionary store: it raises no
    [AttributeError], so the handler of the [try] is never entered.
    Values are taken by what they hold.  Python stores a reference: a list
    that is stored as a tag and is the registry list itself is appended to
    with the registry, which this reading shows only under the registry's
    own name. *)
Definition add (name value : PyVal) (d : Obj) : Obj * (Exn + unit) :=
  match name with
  | PyStr n =>
      let d1 := <[n := value]> d in
      match get_unspecified_names d1 with
      | inl e => (d1, inl e)
      | inr names =>
          match py_in n names with
          | inl e => (d1, inl e)
          | inr true => (d1, inr tt)
          | inr false =>
              match py_append names n with
              | inl e => (d1, inl e)
              | inr names' => (<[registry_attr := names']> d1, inr tt)
              end
          end
      end
  | _ => (d, inl (ValueError ("name must be str, not " +:+ str_type name)))
  end.

(** [MetaDataTags.remove(self, name)] *)
Definition remove (name : PyVal) (d : Obj) : Obj * (Exn + unit) :=
  match name with
  | PyStr n =>
      match get_unspecified_names d with
      | inl e => (d, inl e)
      | inr names =>
          match py_in n names with
          | inl e => (d, inl e)
          | inr false =>
              (d, inl (AttributeError ("no unspecified tag '" +:+ n +:+ "'")))
          | inr true =>
              match d !! n with
              | Some _ => (delete n d, inr tt)
              | None => (d, inl (KeyError n))
              end
          end
      end
  | _ => (d, inl (ValueError ("name must be str, not " +:+ str_type name)))
  end.

(** A caller's sequence of [add] and [remove] calls on one object.  A call
    that raises leaves the object as it was when the exception left the
    method, and the caller goes on. *)
Inductive Op : Type :=
| Add (name value : PyVal)
| Remove (name : PyVal).

Definition step (d : Obj) (o : Op) : Obj :=
  match o with
  | Add name value => fst (add name value d)
  | Remove name => fst (remove name d)
  end.

Definition run (ops : list Op) (d : Obj) : Obj := fold_left step ops d.

(** The registry of extra names as a list, when the attribute holds one. *)
Definition registry (d : Obj) : option (list PyVal) :=
  match d !! registry_attr with
  | Some (PyList l) => Some l
  | _ => None
  end.

(** [n] is registered as an extra (unspecified) tag name. *)
Definition registered (n : string) (d : Obj) : bool :=
  match registry d with
  | Some l => existsb (str_eq n) l
  | None => false
  end.

Definition names_op (n : string) (o : Op) : Prop :=
  match o with
  | Add name _ | Remove name => name = PyStr n
  end.

(** A newly constructed tag set with no extra tags. *)
Definition fresh : Obj := {[ registry_attr := PyList [] ]}.

(** The tag set after [add("customTag", 5)] on a new one. *)
Definition tagged : Obj :=
  <[registry_attr := PyList [PyStr "customTag"]]>
    (<["customTag" := PyInt 5]> fresh).

End MetaDataTags.

(** ** Validation results

    Every [_validate] method receives the [ValidationResult] under
    construction and reports through [result._add(location, code)].  The
    class [ValidationResult] belongs to the generated part of the module; a
    [_validate] method is modelled by the sequence of [_add] calls it makes
    on [result], in order, and by how it ends.  Calls made before an
    exception stay made.  What [_add] keeps of a call (it does not add a
    name twice to the list of issues) is the business of that class. *)

(** One call [result._add(location, code)]. *)
Definition Call : Type := string * string.

Definition V (A : Type) : Type := list Call * (Exn + A).

Global Instance V_ret : MRet V := λ A a, ([], inr a).

Global Instance V_bind : MBind V := λ A B f m,
  match m with
  | (calls, inl e) => (calls, inl e)
  | (calls, inr a) => let '(calls', r) := f a in (calls ++ calls', r)
  end.

(** [result._add(location, code)] *)
Definition _add (location code : string) : V unit := ([(location, code)], inr tt).

(** [raise e] *)
Definition raise {A} (e : Exn) : V A := ([], inl e).

Definition is_IndexError (e : Exn) : bool :=
  match e with IndexError => true | _ => false end.

Definition is_ValueError (e : Exn) : bool :=
  match e with ValueError _ => true | _ => false end.

(** [try: body except E: handler], where [catches] recognises [E]. *)
Definition try_except {A} (catches : Exn → bool) (body handler : V A) : V A :=
  match body with
  | (calls, inl e) =>
      if catches e then let '(calls', r) := handler in (calls ++ calls', r)
      else (calls, inl e)
  | returned => returned
  end.

(** [for x in l: body x] *)
Fixpoint for_each {A} (l : list A) (body : A → V unit) : V unit :=
  match l with
  | [] => mret tt
  | x :: l' => body x ;; for_each l' body
  end.

(** [if c: m] with no [else] *)
Definition when (c : bool) (m : V unit) : V unit := if c then m else mret tt.

(** ** Arrays *)

(** A numpy array; the methods below only look at its shape. *)
Record ndarray : Type := { shape : list nat }.

(** [a.size], the number of elements *)
Definition size (a : ndarray) : nat := foldr Nat.mul 1 (shape a).

(** [np.shape(a)[k]]: [IndexError] when [a] has no dimension [k] *)
Definition shape_at (a : ndarray) (k : nat) : V nat :=
  match shape a !! k with
  | Some n => mret n
  | None => raise IndexError
  end.

(** An open object of the HDF5 file (a group or a dataset). *)
Inductive H5Object : Type := H5 (id : positive).

(** ** StimElement *)

Module StimElement.

Record t : Type := {
  location : string;
  data : option ndarray;
  dataLabels : option ndarray
}.

Section Validate.

(** [super()._validate(result)], the generated method *)
Variable super_validate : t → V unit.

(** [StimElement._validate(self, result)] *)
Definition _validate (self : t) : V unit :=
  super_validate self ;;
  match data self, dataLabels self with
  | Some data, Some dataLabels =>
      try_except is_IndexError
        (columns ← shape_at data 1;
         when (bool_decide (columns ≠ size dataLabels))
           (_add (location self +:+ "/dataLabels") "INVALID_STIM_DATALABELS"))
        (_add (location self +:+ "/data") "INVALID_DATASET_SHAPE")
  | _, _ => mret tt
  end.

End Validate.

End StimElement.

(** ** MeasurementListElement *)

Module MeasurementListElement.

Record t : Type := {
  location : string;
  sourceIndex : option Z;
  detectorIndex : option Z;
  wavelengthIndex : option Z
}.

End MeasurementListElement.

(** ** DataElement *)

Module DataElement.

Record t : Type := {
  location : string;
  time : option ndarray;
  dataTimeSeries : option ndarray;
  measurementList : list MeasurementListElement.t
}.

Section Validate.

(** [super()._validate(result)], the generated method *)
Variable super_validate : t → V unit.

(** [DataElement._validate(self, result)] *)
Definition _validate (self : t) : V unit :=
  super_validate self ;;
  match time self, dataTimeSeries self with
  | Some time, Some dataTimeSeries =>
      rows ← shape_at dataTimeSeries 0;
      when (bool_decide (size time ≠ rows))
        (_add (location self +:+ "/time") "INVALID_TIME") ;;
      columns ← shape_at dataTimeSeries 1;
      when (bool_decide (length (measurementList self) ≠ columns))
        (_add (location self) "INVALID_MEASUREMENTLIST")
  | _, _ => mret tt
  end.

End Validate.

End DataElement.

(** ** Probe *)

(** What a private dataset attribute such as [self._sourceLabels] holds:
    [None], the marker [_AbsentDataset], the marker [_PresentDataset] (the
    dataset is in the file and has not been read), or a value. *)
Inductive DatasetState (A : Type) : Type :=
| IsNone
| AbsentDataset
| PresentDataset
| Loaded (value : A).
Arguments IsNone {A}.
Arguments AbsentDataset {A}.
Arguments PresentDataset {A}.
Arguments Loaded {A} value.

Module Probe.

Record t : Type := {
  location : string;
  (** [self._h], the members of the probe's HDF5 group *)
  _h : gmap string H5Object;
  _sourceLabels : DatasetState PyVal;
  (** the values of the properties, [None] when absent *)
  sourceLabels : option ndarray;
  detectorLabels : option ndarray;
  wavelengths : option ndarray;
  sourcePos2D : option ndarray;
  detectorPos2D : option ndarray;
  sourcePos3D : option ndarray;
  detectorPos3D : option ndarray;
  coordinateSystem : option string;
  coordinateSystemDescription : option string
}.

(** [h[key]] on the members of a group *)
Definition h_getitem (h : gmap string H5Object) (key : string) : V H5Object :=
  match h !! key with
  | Some o => mret o
  | None => raise (KeyError key)
  end.

(** [['REQUIRED_DATASET_MISSING', 'OK'][int(b)]] *)
Definition required_or_ok (b : bool) : string :=
  nth (Nat.b2n b) ["REQUIRED_DATASET_MISSING"; "OK"] "".

Section Validate.

(** The module constant [_RECOGNIZED_COORDINATE_SYSTEM_NAMES] and the
    helpers [_create_dataset_string_array(tmp, 'sourceLabels', value)]
    and [_validate_string_array(dataset, ndims)] of the generated part.
    The first helper yields the dataset it wrote to the temporary file, or
    raises: [ValueError] or any other exception, as it sees fit for the
    value; the second yields a code. *)
Variable _RECOGNIZED_COORDINATE_SYSTEM_NAMES : list string.
Variable _create_dataset_string_array : PyVal → Exn + H5Object.
Variable _validate_string_array : H5Object → list nat → string.

(** [super()._validate(result)], the generated method *)
Variable super_validate : t → V unit.

Definition create_dataset (value : PyVal) : V H5Object :=
  match _create_dataset_string_array value with
  | inr dataset => mret dataset
  | inl e => raise e
  end.

(** The first block of [_validate]: the override of the validation of
    [sourceLabels], which can be 1D or 2D. *)
Definition validate_sourceLabels (self : t) : V unit :=
  match _sourceLabels self with
  | IsNone | AbsentDataset =>
      _add (location self +:+ "/sourceLabels") "OPTIONAL_DATASET_MISSING"
  | state =>
      try_except is_ValueError
        (dataset ←
           match state with
           | Loaded value =>
               if bool_decide (is_Some (_h self !! "sourceLabels"))
               then h_getitem (_h self) "sourceLabels"
               else create_dataset value
           | _ => h_getitem (_h self) "sourceLabels"
           end;
         _add (location self +:+ "/sourceLabels")
              (_validate_string_array dataset [1; 2]))
        (_add (location self +:+ "/sourceLabels") "INVALID_DATASET_TYPE")
  end.

(** The second block: the 2D and 3D positions. *)
Definition validate_positions (self : t) : V unit :=
  let s2 := bool_decide (sourcePos2D self ≠ None) in
  let d2 := bool_decide (detectorPos2D self ≠ None) in
  let s3 := bool_decide (sourcePos3D self ≠ None) in
  let d3 := bool_decide (detectorPos3D self ≠ None) in
  if s2 && d2 then
    _add (location self +:+ "/sourcePos2D") "OK" ;;
    _add (location self +:+ "/detectorPos2D") "OK" ;;
    _add (location self +:+ "/sourcePos3D") "OPTIONAL_DATASET_MISSING" ;;
    _add (location self +:+ "/detectorPos3D") "OPTIONAL_DATASET_MISSING"
  else if s3 && d3 then
    _add (location self +:+ "/sourcePos2D") "OPTIONAL_DATASET_MISSING" ;;
    _add (location self +:+ "/detectorPos2D") "OPTIONAL_DATASET_MISSING" ;;
    _add (location self +:+ "/sourcePos3D") "OK" ;;
    _add (location self +:+ "/detectorPos3D") "OK"
  else
    _add (location self +:+ "/sourcePos2D") (required_or_ok s2) ;;
    _add (location self +:+ "/detectorPos2D") (required_or_ok d2) ;;
    _add (location self +:+ "/sourcePos3D") (required_or_ok s3) ;;
    _add (location self +:+ "/detectorPos3D") (required_or_ok d3).

(** The third block: the name of the coordinate system. *)
Definition validate_coordinateSystem (self : t) : V unit :=
  match coordinateSystem self with
  | Some name =>
      when (negb (bool_decide (name ∈ _RECOGNIZED_COORDINATE_SYSTEM_NAMES)))
        (_add (location self +:+ "/coordinateSystem")
              "UNRECOGNIZED_COORDINATE_SYSTEM" ;;
         when (bool_decide (coordinateSystemDescription self = None))
           (_add (location self +:+ "/coordinateSystemDescription")
                 "NO_COORDINATE_SYSTEM_DESCRIPTION"))
  | None => mret tt
  end.

(** [Probe._validate(self, result)]: the three blocks, then the generated
    method. *)
Definition _validate (self : t) : V unit :=
  validate_sourceLabels self ;;
  validate_positions self ;;
  validate_coordinateSystem self ;;
  super_validate self.

End Validate.

End Probe.

(** ** Snirf *)

(** What a group property such as [nirs.probe] holds: [None], the marker
    [_AbsentGroup], or the group. *)
Inductive GroupState (A : Type) : Type :=
| NoGroup
| AbsentGroup
| Group (g : A).
Arguments NoGroup {A}.
Arguments AbsentGroup {A}.
Arguments Group {A} g.

Module NirsElement.

Record t : Type := {
  probe : GroupState Probe.t;
  data : list DataElement.t
}.

End NirsElement.

(** [self._h] of a [Snirf]: the empty dictionary [{}] while no file is
    attached, else an [h5py.File], open or closed.  Of h5py this uses that
    a file differs from [{}], that [key in file] holds for the member names
    of an open file and for nothing on a closed one, and that [file[key]]
    yields the member of that name. *)
Inductive Backend : Type :=
| EmptyDict
| File (is_open : bool) (members : gmap string H5Object).

Module Snirf.

Record t : Type := {
  _h : Backend;
  nirs : list NirsElement.t
}.

(** [h != {}] *)
Definition differs_from_empty_dict (h : Backend) : bool :=
  match h with
  | EmptyDict => false
  | File _ _ => true
  end.

(** [key in h] *)
Definition contains (h : Backend) (key : string) : bool :=
  match h with
  | EmptyDict => false
  | File is_open members => is_open && bool_decide (is_Some (members !! key))
  end.

(** [h[key]]; it raises when there is no such member *)
Definition getitem (h : Backend) (key : string) : Exn + H5Object :=
  match h with
  | File true members =>
      match members !! key with
      | Some o => inr o
      | None => inl (KeyError key)
      end
  | File false _ | EmptyDict => inl (KeyError key)
  end.

(** [Snirf.__getitem__(self, key)]; a Python function that ends without
    [return] yields [None]. *)
Definition __getitem__ (self : t) (key : string) : Exn + option H5Object :=
  if differs_from_empty_dict (_h self) then
    if contains (_h self) key then
      match getitem (_h self) key with
      | inl e => inl e
      | inr o => inr (Some o)
      end
    else inr None
  else inr None.

(** The body of the innermost loop of [_validate]: the three checks on
    one entry [ml] of a measurement list. *)
Definition check_indices (lenSourceLabels lenDetectorLabels lenWavelengths : nat)
    (ml : MeasurementListElement.t) : V unit :=
  match MeasurementListElement.sourceIndex ml with
  | Some sourceIndex =>
      when (sourceIndex >? Z.of_nat lenSourceLabels)%Z
        (_add (MeasurementListElement.location ml +:+ "/sourceIndex")
              "INVALID_SOURCE_INDEX")
  | None => mret tt
  end ;;
  match MeasurementListElement.detectorIndex ml with
  | Some detectorIndex =>
      when (detectorIndex >? Z.of_nat lenDetectorLabels)%Z
        (_add (MeasurementListElement.location ml +:+ "/detectorIndex")
              "INVALID_DETECTOR_INDEX")
  | None => mret tt
  end ;;
  match MeasurementListElement.wavelengthIndex ml with
  | Some wavelengthIndex =>
      when (wavelengthIndex >? Z.of_nat lenWavelengths)%Z
        (_add (MeasurementListElement.location ml +:+ "/wavelengthIndex")
              "INVALID_WAVELENGTH_INDEX")
  | None => mret tt
  end.

Section Validate.

(** [super()._validate(result)], the generated method *)
Variable super_validate : t → V unit.

(** [Snirf._validate(self, result)] *)
Definition _validate (self : t) : V unit :=
  super_validate self ;;
  for_each (nirs self) (λ nirs,
    match NirsElement.probe nirs with
    | Group probe =>
        lenSourceLabels ←
          match Probe.sourceLabels probe with
          | Some sourceLabels => shape_at sourceLabels 0
          | None => mret 0
          end;
        let lenDetectorLabels :=
          match Probe.detectorLabels probe with
          | Some detectorLabels => size detectorLabels
          | None => 0
          end in
        let lenWavelengths :=
          match Probe.wavelengths probe with
          | Some wavelengths => size wavelengths
          | None => 0
          end in
        for_each (NirsElement.data nirs) (λ data,
          for_each (DataElement.measurementList data)
            (check_indices lenSourceLabels lenDetectorLabels lenWavelengths))
    | NoGroup | AbsentGroup => mret tt
    end).

End Validate.

End Snirf.

(** ** Reading the calls made on a result *)

(** The codes passed to [_add] for one location, in the order of the calls. *)
Definition codes_at (location : string) (calls : list Call) : list string :=
  (filter (λ c : Call, c.1 = location) calls).*2.

(** How many times [_add] was called with this location and code. *)
Definition occurrences (c : Call) (calls : list Call) : nat :=
  length (filter (λ x : Call, x = c) calls).

(** The sizes that [Snirf._validate] derives from a probe: the first
    dimension of [sourceLabels] (there is none on a 0-dimensional array),
    the number of elements of [detectorLabels] and of [wavelengths]; an
    absent collection counts 0. *)
Definition source_count (probe : Probe.t) : option nat :=
  match Probe.sourceLabels probe with
  | Some sourceLabels => shape sourceLabels !! 0
  | None => Some 0
  end.

Definition detector_count (probe : Probe.t) : nat :=
  match Probe.detectorLabels probe with
  | Some detectorLabels => size detectorLabels
  | None => 0
  end.

Definition wavelength_count (probe : Probe.t) : nat :=
  match Probe.wavelengths probe with
  | Some wavelengths => size wavelengths
  | None => 0
  end.



(** The marker [_PresentDataset] stands for a dataset that is in the file. *)
Definition marker_consistent (self : Probe.t) : Prop :=
  Probe._sourceLabels self = PresentDataset →
  is_Some (Probe._h self !! "sourceLabels").

(** ** Sample objects *)

(** A generated [_validate] that reports nothing. *)
Definition reports_nothing {A} (self : A) : V unit := mret tt.

Definition vector (n : nat) : ndarray := {| shape := [n] |}.

Definition matrix (rows columns : nat) : ndarray := {| shape := [rows; columns] |}.

Definition ml_entry (location : string) (source detector wavelength : Z) :
    MeasurementListElement.t :=
  {| MeasurementListElement.location := location;
     MeasurementListElement.sourceIndex := Some source;
     MeasurementListElement.detectorIndex := Some detector;
     MeasurementListElement.wavelengthIndex := Some wavelength |}.

(** A time vector of length 100, a series of shape (100, 5) and a
    measurement list of length 4. *)
Definition sample_data : DataElement.t :=
  {| DataElement.location := "/nirs1/data1";
     DataElement.time := Some (vector 100);
     DataElement.dataTimeSeries := Some (matrix 100 5);
     DataElement.measurementList :=
       [ ml_entry "/nirs1/data1/measurementList1" 1 1 1;
         ml_entry "/nirs1/data1/measurementList2" 1 1 2;
         ml_entry "/nirs1/data1/measurementList3" 2 1 1;
         ml_entry "/nirs1/data1/measurementList4" 3 1 2 ] |}.

(** A one-dimensional series of length 99 beside a time vector of
    length 100. *)
Definition flat_data : DataElement.t :=
  {| DataElement.location := "/nirs1/data1";
     DataElement.time := Some (vector 100);
     DataElement.dataTimeSeries := Some (vector 99);
     DataElement.measurementList := [] |}.

(** The same series with no time vector. *)
Definition flat_data_without_time : DataElement.t :=
  {| DataElement.location := "/nirs1/data1";
     DataElement.time := None;
     DataElement.dataTimeSeries := Some (vector 99);
     DataElement.measurementList := [] |}.

(** A stimulus whose data has one dimension only. *)
Definition flat_stim : StimElement.t :=
  {| StimElement.location := "/nirs1/stim1";
     StimElement.data := Some (vector 3);
     StimElement.dataLabels := Some (vector 3) |}.


(** A probe at [/nirs1/probe] with no labels and no wavelengths. *)
Definition probe_with (s2 d2 s3 d3 : option ndarray)
    (name description : option string) : Probe.t :=
  {| Probe.location := "/nirs1/probe";
     Probe._h := ∅;
     Probe._sourceLabels := AbsentDataset;
     Probe.sourceLabels := None;
     Probe.detectorLabels := None;
     Probe.wavelengths := None;
     Probe.sourcePos2D := s2;
     Probe.detectorPos2D := d2;
     Probe.sourcePos3D := s3;
     Probe.detectorPos3D := d3;
     Probe.coordinateSystem := name;
     Probe.coordinateSystemDescription := description |}.


(** The 2D source positions alone. *)
Definition probe_2D_source_only : Probe.t :=
  probe_with (Some (matrix 2 2)) None None None None None.



(** Sample values for what [Probe._validate] takes from the generated
    part: a set of recognized names, a conversion that always fails with
    [ValueError] and a string-array check that always approves. *)
Definition sample_names : list string := ["MNI152Lin"; "fsaverage"].
Definition never_converts (value : PyVal) : Exn + H5Object :=
  inl (ValueError "could not convert").
Definition always_ok (dataset : H5Object) (ndims : list nat) : string := "OK".

(** A probe with two sources, one detector and two wavelengths. *)
Definition labelled_probe : Probe.t :=
  {| Probe.location := "/nirs1/probe";
     Probe._h := ∅;
     Probe._sourceLabels := Loaded (PyList [PyStr "S1"; PyStr "S2"]);
     Probe.sourceLabels := Some (vector 2);
     Probe.detectorLabels := Some (vector 1);
     Probe.wavelengths := Some (vector 2);
     Probe.sourcePos2D := Some (matrix 2 2);
     Probe.detectorPos2D := Some (matrix 1 2);
     Probe.sourcePos3D := None;
     Probe.detectorPos3D := None;
     Probe.coordinateSystem := None;
     Probe.coordinateSystemDescription := None |}.




(** ** AuxElement *)

Module AuxElement.

Record t : Type := {
  location : string;
  time : option ndarray;
  dataTimeSeries : option ndarray
}.

Section Validate.

(** [super()._validate(result)], the generated method *)
Variable super_validate : t → V unit.

(** [AuxElement._validate(self, result)] *)
Definition _validate (self : t) : V unit :=
  super_validate self ;;
  match time self, dataTimeSeries self with
  | Some time, Some dataTimeSeries =>
      when (bool_decide (size time ≠ size dataTimeSeries))
        (_add (location self +:+ "/time") "INVALID_TIME")
  | _, _ => mret tt
  end.

End Validate.

End AuxElement.

(** ** Saving, and the interface functions *)

From Stdlib Require Import Ascii.

(** [s.endswith(suffix)]: some tail of [s] is [suffix]. *)
Fixpoint endswith (s suffix : string) : bool :=
  bool_decide (s = suffix) ||
  match s with
  | EmptyString => false
  | String _ s' => endswith s' suffix
  end.

(** [s.replace(c, new)] for a one-character [c]: a new string. *)
Fixpoint replace_char (s : string) (c : Ascii.ascii) (new : string) : string :=
  match s with
  | EmptyString => EmptyString
  | String a s' =>
      if bool_decide (a = c) then new +:+ replace_char s' c new
      else String a (replace_char s' c new)
  end.

(** The exceptions of the interface functions, beside those above. *)
Inductive IOExn : Type :=
| FileNotFoundError (msg : string)
| TypeErrorMsg (msg : string)
| Raised (e : Exn).

(** What [Snirf.save] hands to [self._save]: the file the document is
    attached to ([self._h.file]), a new file created at a path, or a file
    created on a stream. *)
Inductive Target : Type :=
| OwnFile
| NewFile (path : string)
| Stream (stream : PyVal).

(** What [loadSnirf] passes to the constructor [Snirf]. *)
Record Opened : Type := {
  opened_path : string;
  mode : string;
  dynamic_loading : bool;
  enable_logging : bool
}.

(** The second argument of [saveSnirf]: a [Snirf] (with the [filename] of
    its h5py file) or some other value. *)
Inductive Object : Type :=
| ASnirf (self : Snirf.t) (h_filename : string)
| Other (value : PyVal).

Module Interface.

(** The document has not been closed.  What the attributes [filename] and
    [file] of a closed h5py file do is h5py's business; the definitions
    below take them as those of an open file, and the statements about
    [save] leave closed documents out. *)
Definition not_closed (self : Snirf.t) : Prop :=
  ∀ members, Snirf._h self ≠ File false members.

(** The property [Snirf.filename]; [h_filename] is [self._h.filename]. *)
Definition filename (self : Snirf.t) (h_filename : string) : option string :=
  if Snirf.differs_from_empty_dict (Snirf._h self) then Some h_filename
  else None.

(** [self._save(self._h.file)]: the dictionary [{}] has no attribute
    [file]. *)
Definition save_own_file (self : Snirf.t) : Exn + Target :=
  match Snirf._h self with
  | File _ _ => inr OwnFile
  | EmptyDict => inl (AttributeError "'dict' object has no attribute 'file'")
  end.

Section Functions.

(** The helper [_isfilelike] of the generated part, [os.path.exists], the
    constructor [Snirf(path, mode)] and the generated [_validate] of the
    document. *)
Variable _isfilelike : PyVal → bool.
Variable path_exists : string → bool.
Variable Snirf_init : string → string → Snirf.t.
Variable super_validate : Snirf.t → V unit.

(** [Snirf.save(self, *args)], up to the call of [self._save]: the target
    that [self._save] is called with, or the exception that [save] ends in
    before it gets there.  Whether h5py creates the file asked for and what
    [_save] does with the target are not part of it: a target is no
    promise that [save] returns.  The value of [path.replace('.', '')] is
    dropped, as in the source. *)
Definition save (self : Snirf.t) (h_filename : string) (args : list PyVal) :
    Exn + Target :=
  match args with
  | PyStr path :: _ =>
      let path :=
        if negb (endswith path ".snirf") then
          let _ := replace_char path "."%char "" in
          path +:+ ".snirf"
        else path in
      if bool_decide (filename self h_filename = Some path)
      then save_own_file self
      else inr (NewFile path)
  | stream :: _ =>
      if _isfilelike stream then inr (Stream stream) else save_own_file self
  | [] => save_own_file self
  end.

(** [loadSnirf(path, dynamic_loading, enable_logging)] *)
Definition loadSnirf (path : string) (dynamic_loading enable_logging : bool) :
    IOExn + Opened :=
  let path := if negb (endswith path ".snirf") then path +:+ ".snirf" else path in
  if path_exists path then
    inr {| opened_path := path; mode := "r+";
           dynamic_loading := dynamic_loading;
           enable_logging := enable_logging |}
  else inl (FileNotFoundError ("No SNIRF file at " +:+ path)).

(** [saveSnirf(path, snirf)]: its two type checks, then [snirf.save(path)]
    read as above, a target being what [_save] is handed and no promise
    that the call returns. *)
Definition saveSnirf (path : PyVal) (snirf : Object) : IOExn + Target :=
  match path with
  | PyStr p =>
      match snirf with
      | ASnirf self h_filename =>
          match save self h_filename [PyStr p] with
          | inl e => inl (Raised e)
          | inr target => inr target
          end
      | Other value =>
          inl (TypeErrorMsg ("snirf must be Snirf, not " +:+ str_type value))
      end
  | _ => inl (TypeErrorMsg ("path must be str, not " +:+ str_type path))
  end.

(** [validateSnirf(path)]: the calls made on the new result by
    [snirf.validate()]; [__exit__] closes the file and lets an exception
    pass. *)
Definition validateSnirf (path : PyVal) : IOExn + list Call :=
  match path with
  | PyStr p =>
      let p := if negb (endswith p ".snirf") then p +:+ ".snirf" else p in
      if path_exists p then
        match Snirf._validate super_validate (Snirf_init p "r") with
        | (calls, inr _) => inr calls
        | (_, inl e) => inl (Raised e)
        end
      else inl (FileNotFoundError ("No SNIRF file at " +:+ p))
  | _ => inl (TypeErrorMsg ("path must be str, not " +:+ str_type path))
  end.

End Functions.

End Interface.

(** ** Further readings of a tag set *)

(** A value that is no list: it cannot be changed in place. *)
Definition not_a_list (v : PyVal) : Prop := ∀ l, v ≠ PyList l.

(** Every entry of [__dict__] but the registry is a registered name. *)
Definition tags_registered (d : gmap string PyVal) : Prop :=
  ∀ m, m ≠ MetaDataTags.registry_attr → is_Some (d !! m) →
       MetaDataTags.registered m d = true.

(** ** Further sample objects *)

(** An auxiliary series of shape (100, 2) beside 100 time points. *)
Definition sample_aux : AuxElement.t :=
  {| AuxElement.location := "/nirs1/aux1";
     AuxElement.time := Some (vector 100);
     AuxElement.dataTimeSeries := Some (matrix 100 2) |}.

(** A stimulus of three columns with two labels. *)
Definition sample_stim : StimElement.t :=
  {| StimElement.location := "/nirs1/stim1";
     StimElement.data := Some (matrix 10 3);
     StimElement.dataLabels := Some (vector 2) |}.

(** Both 3D arrays, and of the 2D arrays the source positions alone. *)
Definition probe_3D_and_2D_source : Probe.t :=
  probe_with (Some (matrix 2 2)) None (Some (matrix 2 3)) (Some (matrix 3 3))
             None None.


(** A conversion that turns every value down with [TypeError]. *)
Definition rejects_with_TypeError (value : PyVal) : Exn + H5Object :=
  inl TypeError.

(** A probe whose labels were assigned in memory, a number, and are not in
    the file. *)
Definition probe_labels_not_in_file : Probe.t :=
  {| Probe.location := "/nirs1/probe";
     Probe._h := ∅;
     Probe._sourceLabels := Loaded (PyInt 5);
     Probe.sourceLabels := None;
     Probe.detectorLabels := None;
     Probe.wavelengths := None;
     Probe.sourcePos2D := Some (matrix 2 2);
     Probe.detectorPos2D := Some (matrix 1 2);
     Probe.sourcePos3D := None;
     Probe.detectorPos3D := None;
     Probe.coordinateSystem := None;
     Probe.coordinateSystemDescription := None |}.

(** A probe marked as having its labels in the file, on a group without
    them. *)
Definition probe_stale_marker : Probe.t :=
  {| Probe.location := "/nirs1/probe";
     Probe._h := ∅;
     Probe._sourceLabels := PresentDataset;
     Probe.sourceLabels := None;
     Probe.detectorLabels := None;
     Probe.wavelengths := None;
     Probe.sourcePos2D := Some (matrix 2 2);
     Probe.detectorPos2D := Some (matrix 1 2);
     Probe.sourcePos3D := None;
     Probe.detectorPos3D := None;
     Probe.coordinateSystem := None;
     Probe.coordinateSystemDescription := None |}.

(** A probe whose [sourceLabels] is in the file and is read as an array
    without dimensions. *)
Definition scalar_labels_probe : Probe.t :=
  {| Probe.location := "/nirs1/probe";
     Probe._h := {[ "sourceLabels" := H5 1 ]};
     Probe._sourceLabels := PresentDataset;
     Probe.sourceLabels := Some {| shape := [] |};
     Probe.detectorLabels := None;
     Probe.wavelengths := None;
     Probe.sourcePos2D := None;
     Probe.detectorPos2D := None;
     Probe.sourcePos3D := None;
     Probe.detectorPos3D := None;
     Probe.coordinateSystem := None;
     Probe.coordinateSystemDescription := None |}.

Definition scalar_labels_snirf : Snirf.t :=
  {| Snirf._h := EmptyDict;
     Snirf.nirs :=
       [ {| NirsElement.probe := Group scalar_labels_probe;
            NirsElement.data := [sample_data] |} ] |}.

(** A document all of whose indices are within the sizes of its probe. *)
Definition valid_snirf : Snirf.t :=
  {| Snirf._h := EmptyDict;
     Snirf.nirs :=
       [ {| NirsElement.probe := Group labelled_probe;
            NirsElement.data :=
              [ {| DataElement.location := "/nirs1/data1";
                   DataElement.time := Some (vector 100);
                   DataElement.dataTimeSeries := Some (matrix 100 2);
                   DataElement.measurementList :=
                     [ ml_entry "/nirs1/data1/measurementList1" 1 1 1;
                       ml_entry "/nirs1/data1/measurementList2" 2 1 2 ] |} ] |} ] |}.

(** A file system holding one file, and a world without file-like
    objects. *)
Definition only_file (name path : string) : bool := bool_decide (path = name).
Definition nothing_filelike (value : PyVal) : bool := false.

(** A document attached to an open, empty file. *)
Definition attached_snirf : Snirf.t :=
  {| Snirf._h := File true ∅; Snirf.nirs := [] |}.

(** * Properties *)

(** ** MetaDataTags *)

Section MetaDataTagsFacts.
Import MetaDataTags.

Lemma registry_lookup (d : Obj) (l : list PyVal) :
  registry d = Some l ↔ d !! registry_attr = Some (PyList l).
Proof.
  unfold registry. destruct (d !! registry_attr) as [[| | |l']|]; naive_solver.
Qed.

Lemma registry_insert_ne (d : Obj) (n : string) (v : PyVal) :
  n ≠ registry_attr → registry (<[n := v]> d) = registry d.
Proof. intros Hn. unfold registry. by rewrite lookup_insert_ne. Qed.

Lemma registry_delete_ne (d : Obj) (n : string) :
  n ≠ registry_attr → registry (delete n d) = registry d.
Proof. intros Hn. unfold registry. by rewrite lookup_delete_ne. Qed.

Lemma registry_insert_attr (d : Obj) (l : list PyVal) :
  registry (<[registry_attr := PyList l]> d) = Some l.
Proof. unfold registry. by rewrite lookup_insert_eq. Qed.

Lemma str_eq_refl (n : string) : str_eq n (PyStr n) = true.
Proof. simpl. by apply bool_decide_eq_true. Qed.

(** [add] with a name that is not a [str] raises [ValueError] and leaves
    the object as it was. *)
Lemma add_name_not_str (name value : PyVal) (d : Obj) :
  (∀ n, name ≠ PyStr n) →
  add name value d =
    (d, inl (ValueError ("name must be str, not " +:+ str_type name))).
Proof. intros Hn. destruct name; try done. by destruct (Hn s). Qed.

(** What [add] does on an object whose registry is a list, for a name
    other than the registry's own: it stores the value and registers the
    name unless it is registered already.  No name is turned down. *)
Lemma add_spec (n : string) (value : PyVal) (d : Obj) (l : list PyVal) :
  registry d = Some l → n ≠ registry_attr →
  add (PyStr n) value d =
    (if existsb (str_eq n) l then <[n := value]> d
     else <[registry_attr := PyList (l ++ [PyStr n])]> (<[n := value]> d),
     inr tt).
Proof.
  intros Hl Hn. apply registry_lookup in Hl.
  unfold add, get_unspecified_names. rewrite lookup_insert_ne by done.
  rewrite Hl. simpl. by destruct (existsb (str_eq n) l).
Qed.

(** What [remove] does on an object whose registry is a list. *)
Lemma remove_spec (n : string) (d : Obj) (l : list PyVal) :
  registry d = Some l →
  remove (PyStr n) d =
    if existsb (str_eq n) l then
      match d !! n with
      | Some _ => (delete n d, inr tt)
      | None => (d, inl (KeyError n))
      end
    else (d, inl (AttributeError ("no unspecified tag '" +:+ n +:+ "'"))).
Proof.
  intros Hl. apply registry_lookup in Hl.
  unfold remove, get_unspecified_names. rewrite Hl. simpl.
  by destruct (existsb (str_eq n) l).
Qed.

(** After [add], the name is registered and holds the value. *)
Lemma add_registers (n : string) (value : PyVal) (d : Obj) (l : list PyVal) :
  registry d = Some l → n ≠ registry_attr →
  let d' := fst (add (PyStr n) value d) in
  d' !! n = Some value ∧ registered n d' = true ∧
  ∃ l', registry d' = Some (l ++ l').
Proof.
  intros Hl Hn. rewrite (add_spec n value d l) by done. simpl.
  unfold registered. destruct (existsb (str_eq n) l) eqn:Hin.
  - rewrite registry_insert_ne, Hl, lookup_insert_eq by done.
    repeat split; [done|]. exists []. by rewrite app_nil_r.
  - rewrite registry_insert_attr, lookup_insert_ne, lookup_insert_eq by done.
    rewrite existsb_app. simpl. rewrite bool_decide_eq_true_2 by done.
    rewrite orb_true_r. eauto.
Qed.

Lemma step_registry (d : Obj) (o : Op) (l : list PyVal) :
  registry d = Some l → ¬ names_op registry_attr o →
  ∃ l', registry (step d o) = Some (l ++ l').
Proof.
  intros Hl Ho. destruct o as [name value|name]; simpl in *.
  - destruct name as [| |n|]; try (exists []; by rewrite app_nil_r).
    assert (n ≠ registry_attr) by congruence.
    by apply add_registers.
  - destruct name as [| |n|]; try (exists []; by rewrite app_nil_r).
    assert (n ≠ registry_attr) by congruence.
    rewrite (remove_spec n d l) by done. exists []. rewrite app_nil_r.
    destruct (existsb (str_eq n) l); [|done].
    destruct (d !! n); [|done]. simpl. by rewrite registry_delete_ne.
Qed.

Lemma run_registry (ops : list Op) (d : Obj) (l : list PyVal) :
  registry d = Some l → Forall (λ o, ¬ names_op registry_attr o) ops →
  ∃ l', registry (run ops d) = Some (l ++ l').
Proof.
  revert d l. induction ops as [|o ops IH]; intros d l Hl Hops.
  - exists []. by rewrite app_nil_r.
  - inversion_clear Hops as [|? ? Ho Hrest].
    destruct (step_registry d o l Hl Ho) as [l1 Hl1].
    destruct (IH _ _ Hl1 Hrest) as [l2 Hl2].
    exists (l1 ++ l2). simpl. by rewrite Hl2, app_assoc.
Qed.

Example add_customTag : fst (add (PyStr "customTag") (PyInt 5) fresh) = tagged.
Proof. reflexivity. Qed.

(** C1 (what the code does at the reserved name): on a tag set whose
    registry is a list, [add("location", x)] is not turned down for any
    [x]: it returns normally, stores [x] under ["location"] in
    [__dict__] and registers ["location"] as an extra name. *)
Theorem add_location_is_accepted (x : PyVal) (d : Obj) (l : list PyVal) :
  registry d = Some l →
  snd (add (PyStr "location") x d) = inr tt ∧
  fst (add (PyStr "location") x d) !! "location" = Some x ∧
  registered "location" (fst (add (PyStr "location") x d)) = true.
Proof.
  intros Hl.
  destruct (add_registers "location" x d l Hl) as (Hv & Hr & _); [done|].
  rewrite (add_spec "location" x d l) in * by done. done.
Qed.

Lemma add_location_is_accepted_witness :
  snd (add (PyStr "location") (PyInt 5) fresh) = inr tt ∧
  fst (add (PyStr "location") (PyInt 5) fresh) !! "location" = Some (PyInt 5) ∧
  registered "location" (fst (add (PyStr "location") (PyInt 5) fresh)) = true.
Proof. apply (add_location_is_accepted (PyInt 5) fresh []). reflexivity. Defined.

(** C2 (what the code does on a repeated remove): after [add(n, v)] the
    first [remove(n)] returns normally; the name stays registered, and a
    second [remove(n)] raises [KeyError] from the [del], not the
    [AttributeError] that says there is no such unspecified tag. *)
Theorem remove_twice_raises_KeyError
    (n : string) (v : PyVal) (d : Obj) (l : list PyVal) :
  registry d = Some l → n ≠ registry_attr →
  let d1 := fst (add (PyStr n) v d) in
  let d2 := fst (remove (PyStr n) d1) in
  snd (add (PyStr n) v d) = inr tt ∧
  snd (remove (PyStr n) d1) = inr tt ∧
  registered n d2 = true ∧
  remove (PyStr n) d2 = (d2, inl (KeyError n)).
Proof.
  intros Hl Hn d1 d2.
  destruct (add_registers n v d l Hl Hn) as (Hv & Hr & l' & Hl').
  fold d1 in Hv, Hr, Hl'.
  assert (Hin : existsb (str_eq n) (l ++ l') = true).
  { unfold registered in Hr. by rewrite Hl' in Hr. }
  assert (Hrem : remove (PyStr n) d1 = (delete n d1, inr tt)).
  { rewrite (remove_spec n d1 _ Hl'), Hin. by rewrite Hv. }
  assert (Hl2 : registry d2 = Some (l ++ l')).
  { unfold d2. rewrite Hrem. simpl. by rewrite registry_delete_ne. }
  split; [by rewrite (add_spec n v d l)|].
  split; [by rewrite Hrem|].
  split; [unfold registered; by rewrite Hl2|].
  rewrite (remove_spec n d2 _ Hl2), Hin.
  unfold d2 at 1. rewrite Hrem. simpl. by rewrite lookup_delete_eq.
Qed.

Lemma remove_twice_raises_KeyError_witness :
  let d1 := fst (add (PyStr "customTag") (PyInt 5) fresh) in
  let d2 := fst (remove (PyStr "customTag") d1) in
  snd (add (PyStr "customTag") (PyInt 5) fresh) = inr tt ∧
  snd (remove (PyStr "customTag") d1) = inr tt ∧
  registered "customTag" d2 = true ∧
  remove (PyStr "customTag") d2 = (d2, inl (KeyError "customTag")).
Proof.
  apply (remove_twice_raises_KeyError "customTag" (PyInt 5) fresh []).
  - reflexivity.
  - discriminate.
Defined.

(** C8, as stated, fails: [add] stores into the dictionary that holds the
    registry, so [add("_unspecified_names", [])] replaces the registry and
    a name registered before is registered no more; a [remove] of that
    name then succeeds and takes the registry away altogether. *)
Lemma registry_can_shrink :
  let d1 := fst (add (PyStr "customTag") (PyInt 5) fresh) in
  let d2 := fst (add (PyStr "_unspecified_names") (PyList []) d1) in
  let d3 := fst (remove (PyStr "_unspecified_names") d2) in
  registered "customTag" d1 = true ∧
  snd (add (PyStr "_unspecified_names") (PyList []) d1) = inr tt ∧
  registered "customTag" d2 = false ∧
  snd (remove (PyStr "_unspecified_names") d2) = inr tt ∧
  registered "_unspecified_names" d3 = false.
Proof. vm_compute. done. Qed.

(** C8, amended: on a tag set whose registry is a list, a successful
    [remove(n)] of a name other than the registry's own attribute name
    deletes the value of [n] and leaves the registry as it was, so [n]
    still counts as registered; and over any sequence of [add] and
    [remove] calls none of which names that attribute, the registry only
    grows: the final registry extends the initial one at its end. *)
Theorem registry_only_grows (d : Obj) (l : list PyVal) :
  registry d = Some l →
  (∀ n, n ≠ registry_attr → snd (remove (PyStr n) d) = inr tt →
     fst (remove (PyStr n) d) !! n = None ∧
     registry (fst (remove (PyStr n) d)) = Some l ∧
     registered n (fst (remove (PyStr n) d)) = true) ∧
  (∀ ops, Forall (λ o, ¬ names_op registry_attr o) ops →
     ∃ l', registry (run ops d) = Some (l ++ l')).
Proof.
  intros Hl. split; [|intros ops; by apply run_registry].
  intros n Hn. rewrite (remove_spec n d l Hl).
  destruct (existsb (str_eq n) l) eqn:Hin; [|done].
  destruct (d !! n); [|done]. simpl. intros _.
  rewrite lookup_delete_eq. unfold registered.
  by rewrite registry_delete_ne, Hl.
Qed.

Lemma registry_only_grows_witness :
  (∀ n, n ≠ registry_attr → snd (remove (PyStr n) tagged) = inr tt →
     fst (remove (PyStr n) tagged) !! n = None ∧
     registry (fst (remove (PyStr n) tagged)) = Some [PyStr "customTag"] ∧
     registered n (fst (remove (PyStr n) tagged)) = true) ∧
  (∀ ops, Forall (λ o, ¬ names_op registry_attr o) ops →
     ∃ l', registry (run ops tagged) = Some ([PyStr "customTag"] ++ l')).
Proof. apply (registry_only_grows tagged [PyStr "customTag"]). reflexivity. Defined.

End MetaDataTagsFacts.

(** ** Calls and outcomes *)

Lemma bind_returned {A B} (calls : list Call) (a : A) (f : A → V B) :
  (calls, inr a) ≫= f = (calls ++ (f a).1, (f a).2).
Proof. unfold mbind, V_bind. by destruct (f a). Qed.

Lemma bind_raised {A B} (calls : list Call) (e : Exn) (f : A → V B) :
  (calls, inl e) ≫= f = (calls, inl e).
Proof. done. Qed.

Lemma suffix_ne (location a b : string) :
  a ≠ b → location +:+ a ≠ location +:+ b.
Proof. intros Hab Heq. by apply (inj _) in Heq. Qed.

Lemma codes_at_nil (location : string) : codes_at location [] = [].
Proof. done. Qed.

Lemma codes_at_cons_eq (location code : string) (calls : list Call) :
  codes_at location ((location, code) :: calls) = code :: codes_at location calls.
Proof. unfold codes_at. by rewrite filter_cons_True. Qed.

Lemma codes_at_cons_ne (location location' code : string) (calls : list Call) :
  location' ≠ location →
  codes_at location ((location', code) :: calls) = codes_at location calls.
Proof. intros Hne. unfold codes_at. by rewrite filter_cons_False. Qed.

Lemma codes_at_app (location : string) (calls calls' : list Call) :
  codes_at location (calls ++ calls') =
  codes_at location calls ++ codes_at location calls'.
Proof. unfold codes_at. by rewrite filter_app, fmap_app. Qed.

Lemma occurrences_cons (c x : Call) (calls : list Call) :
  occurrences c (x :: calls) =
  (if decide (x = c) then 1 else 0) + occurrences c calls.
Proof. unfold occurrences. rewrite filter_cons. by case_decide. Qed.

Ltac codes :=
  repeat first
    [ rewrite codes_at_app
    | rewrite codes_at_cons_eq
    | rewrite codes_at_cons_ne by (apply suffix_ne; discriminate)
    | rewrite codes_at_nil ].

(** ** DataElement and StimElement *)

(** C6: for a Data element with [time] and a [dataTimeSeries] of at least
    two dimensions, after the generated checks have returned, validation
    calls [_add] with INVALID_TIME at [location + '/time'] exactly when the
    size of [time] differs from the first dimension of the series, and with
    INVALID_MEASUREMENTLIST at [location] once when the length of the
    measurement list differs from the second dimension and not at all when
    it equals it; when both agree it adds nothing. *)
Theorem data_shape_checks (super_validate : DataElement.t → V unit)
    (self : DataElement.t) (before : list Call)
    (time dataTimeSeries : ndarray) (rows columns : nat) (rest : list nat) :
  super_validate self = (before, inr tt) →
  DataElement.time self = Some time →
  DataElement.dataTimeSeries self = Some dataTimeSeries →
  shape dataTimeSeries = rows :: columns :: rest →
  ∃ own,
    DataElement._validate super_validate self = (before ++ own, inr tt) ∧
    ((DataElement.location self +:+ "/time", "INVALID_TIME") ∈ own ↔
       size time ≠ rows) ∧
    (length (DataElement.measurementList self) ≠ columns →
       occurrences (DataElement.location self, "INVALID_MEASUREMENTLIST") own = 1) ∧
    (length (DataElement.measurementList self) = columns →
       occurrences (DataElement.location self, "INVALID_MEASUREMENTLIST") own = 0) ∧
    (size time = rows → length (DataElement.measurementList self) = columns →
       own = []).
Proof.
  intros Hsuper Htime Hseries Hshape.
  unfold DataElement._validate. rewrite Hsuper, Htime, Hseries.
  unfold shape_at, when. rewrite Hshape.
  exists ((if bool_decide (size time ≠ rows)
           then [(DataElement.location self +:+ "/time", "INVALID_TIME")]
           else []) ++
          (if bool_decide (length (DataElement.measurementList self) ≠ columns)
           then [(DataElement.location self, "INVALID_MEASUREMENTLIST")]
           else [])).
  simpl. repeat case_bool_decide; simpl; (split; [reflexivity|]);
    rewrite ?occurrences_cons; repeat case_decide; set_solver.
Qed.

Lemma data_shape_checks_witness :
  ∃ own,
    DataElement._validate reports_nothing sample_data = ([] ++ own, inr tt) ∧
    ((DataElement.location sample_data +:+ "/time", "INVALID_TIME") ∈ own ↔
       size (vector 100) ≠ 100) ∧
    (length (DataElement.measurementList sample_data) ≠ 5 →
       occurrences (DataElement.location sample_data, "INVALID_MEASUREMENTLIST") own = 1) ∧
    (length (DataElement.measurementList sample_data) = 5 →
       occurrences (DataElement.location sample_data, "INVALID_MEASUREMENTLIST") own = 0) ∧
    (size (vector 100) = 100 → length (DataElement.measurementList sample_data) = 5 →
       own = []).
Proof.
  apply (data_shape_checks reports_nothing sample_data [] (vector 100)
           (matrix 100 5) 100 5 []); reflexivity.
Defined.

(** The example of the specification: a time vector of length 100, a
    series of shape (100, 5) and a measurement list shrunk to length 4. *)
Example sample_data_calls :
  DataElement._validate reports_nothing sample_data =
  ([("/nirs1/data1", "INVALID_MEASUREMENTLIST")], inr tt).
Proof. reflexivity. Qed.

(** C9, as stated, fails on the side of [DataElement]: with a
    one-dimensional series and no [time], [_validate] makes no check and
    returns normally; with a [time] whose size differs from the length of
    the series, it has added INVALID_TIME at [/time] by the time the
    [IndexError] leaves it. *)
Lemma data_few_dimensions_other_outcomes :
  DataElement.dataTimeSeries flat_data_without_time = Some (vector 99) ∧
  DataElement._validate reports_nothing flat_data_without_time = ([], inr tt) ∧
  DataElement.dataTimeSeries flat_data = Some (vector 99) ∧
  DataElement._validate reports_nothing flat_data =
    ([("/nirs1/data1/time", "INVALID_TIME")], inl IndexError).
Proof. vm_compute. done. Qed.

(** C9, amended: after the generated checks have returned,
    [StimElement._validate] always returns normally, and when [data] and
    [dataLabels] are present and [data] has fewer than two dimensions it
    adds INVALID_DATASET_SHAPE at [location + '/data'] and nothing else;
    [DataElement._validate], when [time] and [dataTimeSeries] are both
    present and the series has fewer than two dimensions, ends in an
    uncaught [IndexError], having added nothing but, for a one-dimensional
    series whose length differs from the size of [time], INVALID_TIME at
    [location + '/time']; with [time] absent it checks nothing and returns
    normally. *)
Theorem few_dimensions
    (stim_super : StimElement.t → V unit) (stim : StimElement.t)
    (stim_before : list Call)
    (data_super : DataElement.t → V unit) (data : DataElement.t)
    (data_before : list Call) :
  stim_super stim = (stim_before, inr tt) →
  data_super data = (data_before, inr tt) →
  (∃ own,
     StimElement._validate stim_super stim = (stim_before ++ own, inr tt) ∧
     ∀ a labels,
       StimElement.data stim = Some a →
       StimElement.dataLabels stim = Some labels →
       length (shape a) < 2 →
       own = [(StimElement.location stim +:+ "/data", "INVALID_DATASET_SHAPE")]) ∧
  (∀ time a,
     DataElement.time data = Some time →
     DataElement.dataTimeSeries data = Some a →
     length (shape a) < 2 →
     ∃ own,
       DataElement._validate data_super data = (data_before ++ own, inl IndexError) ∧
       (∀ c, c ∈ own → c = (DataElement.location data +:+ "/time", "INVALID_TIME")) ∧
       (shape a = [] → own = []) ∧
       (∀ rows, shape a = [rows] →
          ((DataElement.location data +:+ "/time", "INVALID_TIME") ∈ own ↔
             size time ≠ rows))) ∧
  (DataElement.time data = None →
   DataElement._validate data_super data = (data_before, inr tt)).
Proof.
  intros Hstim Hdata. split; [|split].
  - unfold StimElement._validate. rewrite Hstim.
    destruct (StimElement.data stim) as [a|];
      [destruct (StimElement.dataLabels stim) as [labels|]|].
    + unfold shape_at. destruct (shape a) as [|rows [|columns rest]] eqn:Hshape.
      * simpl. eexists. split; [reflexivity|]. by intros ? ? [= <-] _ _.
      * simpl. eexists. split; [reflexivity|]. by intros ? ? [= <-] _ _.
      * simpl. unfold when. case_bool_decide; simpl.
        -- eexists. split; [reflexivity|]. intros ? ? [= <-] _.
           rewrite Hshape. simpl. lia.
        -- eexists. split; [reflexivity|]. intros ? ? [= <-] _.
           rewrite Hshape. simpl. lia.
    + simpl. exists []. split; [done|]. by intros ? ? _ [=].
    + simpl. exists []. split; [done|]. by intros ? ? [=].
  - intros time a Htime Hseries Hdim.
    unfold DataElement._validate. rewrite Hdata, Htime, Hseries.
    unfold shape_at. destruct (shape a) as [|rows [|columns rest]] eqn:Hshape.
    + simpl. exists []. split; [done|]. split; [set_solver|]. split; [done|].
      by intros ? [=].
    + simpl. unfold when. case_bool_decide as Hrows; simpl.
      * eexists. split; [reflexivity|]. split; [set_solver|].
        split; [by intros [=]|]. intros ? [= <-]. set_solver.
      * exists []. split; [done|]. split; [set_solver|]. split; [done|].
        intros ? [= <-]. set_solver.
    + simpl in Hdim. lia.
  - intros Htime. unfold DataElement._validate. rewrite Hdata, Htime.
    simpl. by rewrite app_nil_r.
Qed.

Lemma few_dimensions_witness :
  (∃ own,
     StimElement._validate reports_nothing flat_stim = ([] ++ own, inr tt) ∧
     ∀ a labels,
       StimElement.data flat_stim = Some a →
       StimElement.dataLabels flat_stim = Some labels →
       length (shape a) < 2 →
       own = [(StimElement.location flat_stim +:+ "/data", "INVALID_DATASET_SHAPE")]) ∧
  (∀ time a,
     DataElement.time flat_data = Some time →
     DataElement.dataTimeSeries flat_data = Some a →
     length (shape a) < 2 →
     ∃ own,
       DataElement._validate reports_nothing flat_data = ([] ++ own, inl IndexError) ∧
       (∀ c, c ∈ own → c = (DataElement.location flat_data +:+ "/time", "INVALID_TIME")) ∧
       (shape a = [] → own = []) ∧
       (∀ rows, shape a = [rows] →
          ((DataElement.location flat_data +:+ "/time", "INVALID_TIME") ∈ own ↔
             size time ≠ rows))) ∧
  (DataElement.time flat_data = None →
   DataElement._validate reports_nothing flat_data = ([], inr tt)).
Proof.
  apply (few_dimensions reports_nothing flat_stim [] reports_nothing flat_data []);
    reflexivity.
Defined.

(** ** Probe *)

Section ProbeFacts.

Variable names : list string.
Variable create : PyVal → Exn + H5Object.
Variable validate_string_array : H5Object → list nat → string.
Variable super_validate : Probe.t → V unit.

Implicit Type self : Probe.t.

(** When the first block returns, it has made one call, at
    [/sourceLabels]. *)
Lemma validate_sourceLabels_calls self :
  (Probe.validate_sourceLabels create validate_string_array self).2 = inr tt →
  ∃ code,
    Probe.validate_sourceLabels create validate_string_array self =
    ([(Probe.location self +:+ "/sourceLabels", code)], inr tt).
Proof.
  unfold Probe.validate_sourceLabels, Probe.h_getitem, Probe.create_dataset.
  destruct (Probe._sourceLabels self) as [| | |value]; try by eexists.
  - destruct (Probe._h self !! "sourceLabels") as [o|]; [by eexists|done].
  - case_bool_decide as Hin.
    + destruct Hin as [o ->]. by eexists.
    + destruct (create value) as [e|dataset]; [|by eexists].
      destruct e; simpl; try done; by eexists.
Qed.

(** The first block returns when the marker of a dataset in the file is
    matched by the file and the conversion of a value, where it fails,
    fails with [ValueError]. *)
Lemma validate_sourceLabels_returns self :
  marker_consistent self →
  (∀ value e, Probe._sourceLabels self = Loaded value →
              create value = inl e → is_ValueError e = true) →
  (Probe.validate_sourceLabels create validate_string_array self).2 = inr tt.
Proof.
  intros Hmarker Hconv.
  unfold Probe.validate_sourceLabels, Probe.h_getitem, Probe.create_dataset,
    marker_consistent in *.
  destruct (Probe._sourceLabels self) as [| | |value]; try done.
  - destruct Hmarker as [o ->]; done.
  - case_bool_decide as Hin.
    + by destruct Hin as [o ->].
    + destruct (create value) as [e|dataset] eqn:Hcreate; [|done].
      specialize (Hconv value e eq_refl Hcreate). by destruct e.
Qed.

(** The calls of the first three blocks, and how [_validate] ends. *)
Lemma probe_validate_calls self :
  (Probe.validate_sourceLabels create validate_string_array self).2 = inr tt →
  ∃ code,
    Probe._validate names create validate_string_array super_validate self =
    ((Probe.location self +:+ "/sourceLabels", code) ::
       (Probe.validate_positions self).1 ++
       (Probe.validate_coordinateSystem names self).1 ++
       (super_validate self).1,
     (super_validate self).2) ∧
    (Probe.validate_positions self).2 = inr tt ∧
    (Probe.validate_coordinateSystem names self).2 = inr tt.
Proof.
  intros Hmarker.
  destruct (validate_sourceLabels_calls self Hmarker) as [code Hblock].
  exists code. unfold Probe._validate. rewrite Hblock.
  assert (Hpos : (Probe.validate_positions self).2 = inr tt).
  { unfold Probe.validate_positions.
    by repeat match goal with |- context [if ?b then _ else _] => destruct b end. }
  assert (Hcs : (Probe.validate_coordinateSystem names self).2 = inr tt).
  { unfold Probe.validate_coordinateSystem, when.
    destruct (Probe.coordinateSystem self); [|done].
    by repeat match goal with |- context [if ?b then _ else _] => destruct b end. }
  destruct (Probe.validate_positions self) as [pos [?|[]]]; [done|].
  destruct (Probe.validate_coordinateSystem names self) as [cs [?|[]]]; [done|].
  destruct (super_validate self) as [sup r]. done.
Qed.

Lemma coordinateSystem_elsewhere self (suffix : string) :
  suffix ≠ "/coordinateSystem" → suffix ≠ "/coordinateSystemDescription" →
  codes_at (Probe.location self +:+ suffix)
    (Probe.validate_coordinateSystem names self).1 = [].
Proof.
  intros H1 H2. unfold Probe.validate_coordinateSystem, when.
  destruct (Probe.coordinateSystem self); [|done].
  repeat match goal with |- context [if ?b then _ else _] => destruct b end;
    simpl; rewrite ?codes_at_cons_ne by (by apply suffix_ne); done.
Qed.





End ProbeFacts.





(** ** Snirf *)

(** C10: [Snirf.__getitem__] raises for no key: it yields the member of
    that name when the backend is an open file that has one, and [None]
    otherwise, be the name absent from the open file, the file closed, or
    the backend still the empty dictionary. *)
Theorem getitem_never_raises (self : Snirf.t) (key : string) :
  Snirf.__getitem__ self key =
  inr match Snirf._h self with
      | File true members => members !! key
      | File false _ | EmptyDict => None
      end.
Proof.
  unfold Snirf.__getitem__.
  destruct (Snirf._h self) as [|[] members]; simpl; try done.
  case_bool_decide as Hin.
  - by destruct Hin as [o ->].
  - destruct (members !! key) eqn:Hkey; [|done]. by destruct Hin.
Qed.



(** A loop whose body returns at every element returns, and has made the
    calls of the body at each element. *)
Lemma for_each_returned {A} (l : list A) (body : A → V unit) :
  (∀ x, x ∈ l → (body x).2 = inr tt) →
  for_each l body = (x ← l; (body x).1, inr tt).
Proof.
  induction l as [|x l IH]; intros Hbody; [done|].
  simpl. destruct (body x) as [calls [e|[]]] eqn:Hx.
  - specialize (Hbody x (list_elem_of_here _ _)). by rewrite Hx in Hbody.
  - rewrite bind_returned, IH; [done|]. intros y Hy. apply Hbody. by right.
Qed.

Lemma check_indices_returned (s d w : nat) (ml : MeasurementListElement.t) :
  (Snirf.check_indices s d w ml).2 = inr tt.
Proof.
  unfold Snirf.check_indices, when.
  destruct (MeasurementListElement.sourceIndex ml) as [i|],
    (MeasurementListElement.detectorIndex ml) as [j|],
    (MeasurementListElement.wavelengthIndex ml) as [k|];
    repeat match goal with |- context [if ?b then _ else _] => destruct b end;
    done.
Qed.

Lemma elem_of_check_indices (c : Call) (s d w : nat)
    (ml : MeasurementListElement.t) :
  c ∈ (Snirf.check_indices s d w ml).1 ↔
  (∃ i, MeasurementListElement.sourceIndex ml = Some i ∧ (Z.of_nat s < i)%Z ∧
        c = (MeasurementListElement.location ml +:+ "/sourceIndex",
             "INVALID_SOURCE_INDEX")) ∨
  (∃ i, MeasurementListElement.detectorIndex ml = Some i ∧ (Z.of_nat d < i)%Z ∧
        c = (MeasurementListElement.location ml +:+ "/detectorIndex",
             "INVALID_DETECTOR_INDEX")) ∨
  (∃ i, MeasurementListElement.wavelengthIndex ml = Some i ∧ (Z.of_nat w < i)%Z ∧
        c = (MeasurementListElement.location ml +:+ "/wavelengthIndex",
             "INVALID_WAVELENGTH_INDEX")).
Proof.
  unfold Snirf.check_indices, when.
  destruct (MeasurementListElement.sourceIndex ml) as [i|],
    (MeasurementListElement.detectorIndex ml) as [j|],
    (MeasurementListElement.wavelengthIndex ml) as [k|];
    repeat match goal with
      | |- context [(?x >? ?y)%Z] => destruct (Z.gtb_spec x y)
      end; simpl;
    rewrite ?elem_of_cons, ?elem_of_nil; naive_solver lia.
Qed.





(** The calls of the cross-reference pass: those of [check_indices] at
    every entry of every Data element of every recording with a probe. *)
Lemma snirf_validate_calls (super_validate : Snirf.t → V unit)
    (self : Snirf.t) (before : list Call) :
  super_validate self = (before, inr tt) →
  (∀ nirs probe,
     nirs ∈ Snirf.nirs self → NirsElement.probe nirs = Group probe →
     is_Some (source_count probe)) →
  ∃ own,
    Snirf._validate super_validate self = (before ++ own, inr tt) ∧
    ∀ c, c ∈ own ↔
      ∃ nirs probe sources data ml,
        nirs ∈ Snirf.nirs self ∧ NirsElement.probe nirs = Group probe ∧
        source_count probe = Some sources ∧
        data ∈ NirsElement.data nirs ∧
        ml ∈ DataElement.measurementList data ∧
        c ∈ (Snirf.check_indices sources (detector_count probe)
               (wavelength_count probe) ml).1.
Proof.
  intros Hsuper Hsources. unfold Snirf._validate. rewrite Hsuper.
  match goal with |- context [for_each _ ?f] => set (body := f) end.
  assert (Hbody : ∀ nirs, nirs ∈ Snirf.nirs self →
            (body nirs).2 = inr tt ∧
            ∀ c, c ∈ (body nirs).1 ↔
              ∃ probe sources data ml,
                NirsElement.probe nirs = Group probe ∧
                source_count probe = Some sources ∧
                data ∈ NirsElement.data nirs ∧
                ml ∈ DataElement.measurementList data ∧
                c ∈ (Snirf.check_indices sources (detector_count probe)
                       (wavelength_count probe) ml).1).
  { intros nirs Hn. unfold body.
    destruct (NirsElement.probe nirs) as [| |probe] eqn:Hprobe;
      [split; [done|]; intros c; split;
         [by intros ?%elem_of_nil|by intros (?&?&?&?&[=]&_)]..|].
    destruct (Hsources nirs probe Hn Hprobe) as [sources Hs].
    assert (Hlen : (match Probe.sourceLabels probe with
                    | Some sourceLabels => shape_at sourceLabels 0
                    | None => mret 0
                    end : V nat) = ([], inr sources)).
    { unfold source_count in Hs. unfold shape_at.
      destruct (Probe.sourceLabels probe); [by rewrite Hs|by injection Hs as <-]. }
    rewrite Hlen, bind_returned. simpl.
    fold (detector_count probe). fold (wavelength_count probe).
    rewrite for_each_returned.
    2:{ intros data _. rewrite for_each_returned; [done|].
        intros ml _. apply check_indices_returned. }
    split; [done|]. intros c. simpl. rewrite list_elem_of_bind. split.
    - intros (data & Hc & Hd). rewrite for_each_returned in Hc
        by (intros; apply check_indices_returned).
      simpl in Hc. apply list_elem_of_bind in Hc as (ml & Hc & Hm).
      exists probe, sources, data, ml. done.
    - intros (probe' & sources' & data & ml & [= <-] & Hs' & Hd & Hm & Hc).
      assert (sources' = sources) as -> by congruence.
      exists data. split; [|done]. rewrite for_each_returned
        by (intros; apply check_indices_returned).
      simpl. apply list_elem_of_bind. eauto. }
  rewrite for_each_returned by (intros; by apply Hbody).
  rewrite bind_returned. simpl. eexists. split; [reflexivity|].
  intros c. rewrite list_elem_of_bind. split.
  - intros (nirs & Hc & Hn). apply (Hbody nirs Hn) in Hc.
    destruct Hc as (probe & sources & data & ml & ?). by exists nirs, probe, sources, data, ml.
  - intros (nirs & probe & sources & data & ml & Hn & Hrest).
    exists nirs. split; [|done]. apply (Hbody nirs Hn). by exists probe, sources, data, ml.
Qed.








(** * Further properties *)

(** ** MetaDataTags *)

Section MetaDataTagsMore.
Import MetaDataTags.

Lemma not_registered_not_elem (n : string) (l : list PyVal) :
  existsb (str_eq n) l = false → PyStr n ∉ l.
Proof.
  intros Hn Hin. apply not_true_iff_false in Hn. apply Hn.
  apply existsb_exists. exists (PyStr n). split; [|apply str_eq_refl].
  by apply list_elem_of_In.
Qed.

(** X1: on a tag set whose registry is a list, after [add(n, v)] for a
    name other than the registry's attribute and a value that is not a
    list, [__dict__[n]] is [v], and every other entry but the registry that
    does not hold a list is what it was. *)
Theorem add_then_lookup (n : string) (v : PyVal) (d : Obj) (l : list PyVal) :
  registry d = Some l → n ≠ registry_attr → not_a_list v →
  fst (add (PyStr n) v d) !! n = Some v ∧
  ∀ m, m ≠ n → m ≠ registry_attr →
       (∀ l', d !! m ≠ Some (PyList l')) →
       fst (add (PyStr n) v d) !! m = d !! m.
Proof.
  intros Hl Hn _. rewrite (add_spec n v d l) by done. simpl.
  destruct (existsb (str_eq n) l); split;
    try (intros m Hm Hattr _); by simplify_map_eq.
Qed.

Lemma add_then_lookup_witness :
  fst (add (PyStr "SubjectAge") (PyInt 30) tagged) !! "SubjectAge" =
    Some (PyInt 30) ∧
  ∀ m, m ≠ "SubjectAge" → m ≠ registry_attr →
       (∀ l', tagged !! m ≠ Some (PyList l')) →
       fst (add (PyStr "SubjectAge") (PyInt 30) tagged) !! m = tagged !! m.
Proof.
  apply (add_then_lookup "SubjectAge" (PyInt 30) tagged [PyStr "customTag"]).
  - reflexivity.
  - discriminate.
  - intros l'. discriminate.
Defined.

Lemma step_registry_NoDup (d : Obj) (o : Op) (l : list PyVal) :
  registry d = Some l → NoDup l → ¬ names_op registry_attr o →
  ∃ l', registry (step d o) = Some l' ∧ NoDup l'.
Proof.
  intros Hl Hnd Ho. destruct o as [name value|name]; simpl in *.
  - destruct name as [| |n|]; try by exists l.
    assert (n ≠ registry_attr) by congruence.
    rewrite (add_spec n value d l) by done. simpl.
    destruct (existsb (str_eq n) l) eqn:Hin.
    + exists l. by rewrite registry_insert_ne.
    + exists (l ++ [PyStr n]). rewrite registry_insert_attr. split; [done|].
      apply NoDup_app. split; [done|]. split; [|apply NoDup_singleton].
      intros x Hx ->%list_elem_of_singleton.
      by apply (not_registered_not_elem n l).
  - destruct name as [| |n|]; try by exists l.
    assert (n ≠ registry_attr) by congruence.
    rewrite (remove_spec n d l) by done. exists l.
    destruct (existsb (str_eq n) l); [|done].
    destruct (d !! n); [|done]. simpl. by rewrite registry_delete_ne.
Qed.

(** X2: the registry never comes to hold a name twice: over any sequence
    of [add] and [remove] calls that do not name the registry's attribute,
    a registry without duplicates stays without duplicates. *)
Theorem registry_stays_NoDup (ops : list Op) (d : Obj) (l : list PyVal) :
  registry d = Some l → NoDup l →
  Forall (λ o, ¬ names_op registry_attr o) ops →
  ∃ l', registry (run ops d) = Some l' ∧ NoDup l'.
Proof.
  revert d l. induction ops as [|o ops IH]; intros d l Hl Hnd Hops.
  - by exists l.
  - inversion_clear Hops as [|? ? Ho Hrest].
    destruct (step_registry_NoDup d o l Hl Hnd Ho) as (l1 & Hl1 & Hnd1).
    simpl. by apply (IH _ l1).
Qed.

Lemma registry_stays_NoDup_witness :
  ∃ l', registry (run [Add (PyStr "customTag") (PyInt 6);
                      Remove (PyStr "customTag");
                      Add (PyStr "customTag") (PyInt 7)] tagged) = Some l' ∧
        NoDup l'.
Proof.
  apply (registry_stays_NoDup _ tagged [PyStr "customTag"]).
  - reflexivity.
  - apply NoDup_singleton.
  - repeat constructor; discriminate.
Defined.

Lemma add_other_entries (n : string) (v : PyVal) (d : Obj) (l : list PyVal) :
  registry d = Some l → n ≠ registry_attr →
  ∀ m, m ≠ n → m ≠ registry_attr → fst (add (PyStr n) v d) !! m = d !! m.
Proof.
  intros Hl Hn m Hm Hattr. rewrite (add_spec n v d l) by done. simpl.
  destruct (existsb (str_eq n) l); by simplify_map_eq.
Qed.

Lemma step_tags_registered (d : Obj) (o : Op) (l : list PyVal) :
  registry d = Some l → ¬ names_op registry_attr o →
  tags_registered d → tags_registered (step d o).
Proof.
  intros Hl Ho Hinv. destruct o as [name value|name]; simpl in *.
  - destruct name as [| |n|]; try done.
    assert (Hn : n ≠ registry_attr) by congruence.
    destruct (add_registers n value d l Hl Hn) as (_ & Hreg & l' & Hl').
    intros m Hm Hsome. destruct (decide (m = n)) as [->|Hmn]; [done|].
    rewrite (add_other_entries n value d l Hl Hn) in Hsome by done.
    specialize (Hinv m Hm Hsome).
    unfold registered in *. rewrite Hl', existsb_app. rewrite Hl in Hinv.
    by rewrite Hinv.
  - destruct name as [| |n|]; try done.
    assert (Hn : n ≠ registry_attr) by congruence.
    rewrite (remove_spec n d l) by done.
    destruct (existsb (str_eq n) l); [|done].
    destruct (d !! n) eqn:Hdn; [|done]. simpl.
    intros m Hm Hsome. destruct (decide (m = n)) as [->|Hmn].
    + rewrite lookup_delete_eq in Hsome. by destruct Hsome.
    + rewrite lookup_delete_ne in Hsome by done.
      unfold registered. rewrite registry_delete_ne by done. by apply Hinv.
Qed.

(** X3: every tag that is stored is registered: over any sequence of [add]
    and [remove] calls that do not name the registry's attribute, if every
    entry of [__dict__] other than the registry is a registered name, this
    stays so. *)
Theorem stored_tags_stay_registered (ops : list Op) (d : Obj) (l : list PyVal) :
  registry d = Some l → tags_registered d →
  Forall (λ o, ¬ names_op registry_attr o) ops →
  tags_registered (run ops d).
Proof.
  revert d l. induction ops as [|o ops IH]; intros d l Hl Hinv Hops; [done|].
  inversion_clear Hops as [|? ? Ho Hrest].
  destruct (step_registry d o l Hl Ho) as [l1 Hl1].
  simpl. apply (IH _ _ Hl1); [|done]. by apply (step_tags_registered d o l).
Qed.

Lemma stored_tags_stay_registered_witness :
  tags_registered
    (run [Add (PyStr "customTag") (PyInt 5); Add (PyStr "SubjectAge") (PyInt 30);
          Remove (PyStr "customTag")] fresh).
Proof.
  apply (stored_tags_stay_registered _ fresh []).
  - reflexivity.
  - intros m Hm [v Hv]. unfold fresh in Hv.
    by rewrite lookup_singleton_ne in Hv.
  - repeat constructor; discriminate.
Defined.

(** X4: a [remove] that raises, whatever the reason, leaves the object as
    it was. *)
Theorem remove_raises_unchanged (name : PyVal) (d : Obj) (e : Exn) :
  snd (remove name d) = inl e → fst (remove name d) = d.
Proof.
  unfold remove. destruct name as [| |n|]; try done.
  destruct (get_unspecified_names d) as [?|names]; [done|].
  destruct (py_in n names) as [?|[]]; try done.
  by destruct (d !! n).
Qed.

Lemma remove_raises_unchanged_witness :
  fst (remove (PyStr "customTag") fresh) = fresh.
Proof.
  apply (remove_raises_unchanged (PyStr "customTag") fresh
           (AttributeError "no unspecified tag 'customTag'")).
  reflexivity.
Defined.

Lemma after_add_remove (n : string) (v : PyVal) (d : Obj) (l : list PyVal) :
  registry d = Some l → n ≠ registry_attr →
  ∃ l1,
    registry (fst (add (PyStr n) v d)) = Some l1 ∧
    existsb (str_eq n) l1 = true ∧
    registry (fst (remove (PyStr n) (fst (add (PyStr n) v d)))) = Some l1.
Proof.
  intros Hl Hn.
  destruct (add_registers n v d l Hl Hn) as (Hv & Hr & l' & Hl').
  exists (l ++ l'). split; [done|].
  assert (Hin : existsb (str_eq n) (l ++ l') = true).
  { unfold registered in Hr. by rewrite Hl' in Hr. }
  split; [done|].
  rewrite (remove_spec n _ _ Hl'), Hin, Hv. simpl.
  by rewrite registry_delete_ne.
Qed.

(** X5: a tag that was removed can be added again: after [add(n, v)] and
    [remove(n)], [add(n, w)] returns normally, stores [w], leaves the
    registry as the first [add] left it (the name is not registered a
    second time), and [remove(n)] succeeds once more. *)
Theorem add_after_remove (n : string) (v w : PyVal) (d : Obj) (l : list PyVal) :
  registry d = Some l → n ≠ registry_attr →
  let d1 := fst (add (PyStr n) v d) in
  let d2 := fst (remove (PyStr n) d1) in
  let d3 := fst (add (PyStr n) w d2) in
  snd (add (PyStr n) w d2) = inr tt ∧
  d3 !! n = Some w ∧
  registry d3 = registry d1 ∧
  snd (remove (PyStr n) d3) = inr tt.
Proof.
  intros Hl Hn d1 d2 d3.
  destruct (after_add_remove n v d l Hl Hn)
    as (l1 & Hl1 & Hin & Hl2).
  fold d1 in Hl1. fold d2 in Hl2.
  assert (Hadd : add (PyStr n) w d2 = (<[n := w]> d2, inr tt)).
  { by rewrite (add_spec n w d2 l1), Hin. }
  assert (Hl3 : registry d3 = Some l1).
  { unfold d3. rewrite Hadd. simpl. by rewrite registry_insert_ne. }
  assert (Hw : d3 !! n = Some w).
  { unfold d3. rewrite Hadd. simpl. by rewrite lookup_insert_eq. }
  split; [by rewrite Hadd|]. split; [done|]. split; [congruence|].
  by rewrite (remove_spec n d3 l1 Hl3), Hin, Hw.
Qed.

Lemma add_after_remove_witness :
  let d1 := fst (add (PyStr "customTag") (PyInt 5) fresh) in
  let d2 := fst (remove (PyStr "customTag") d1) in
  let d3 := fst (add (PyStr "customTag") (PyInt 6) d2) in
  snd (add (PyStr "customTag") (PyInt 6) d2) = inr tt ∧
  d3 !! "customTag" = Some (PyInt 6) ∧
  registry d3 = registry d1 ∧
  snd (remove (PyStr "customTag") d3) = inr tt.
Proof.
  apply (add_after_remove "customTag" (PyInt 5) (PyInt 6) fresh []).
  - reflexivity.
  - discriminate.
Defined.

End MetaDataTagsMore.

(** ** AuxElement and StimElement *)

(** X6: after the generated checks have returned, [AuxElement._validate]
    returns normally whatever the dimensions of the arrays; it adds
    INVALID_TIME at [location + '/time'] when [time] and [dataTimeSeries]
    are both present and differ in their number of elements, and nothing in
    every other case. *)
Theorem aux_time_check (super_validate : AuxElement.t → V unit)
    (self : AuxElement.t) (before : list Call) :
  super_validate self = (before, inr tt) →
  ∃ own,
    AuxElement._validate super_validate self = (before ++ own, inr tt) ∧
    (∀ time series,
       AuxElement.time self = Some time →
       AuxElement.dataTimeSeries self = Some series →
       size time ≠ size series →
       own = [(AuxElement.location self +:+ "/time", "INVALID_TIME")]) ∧
    (∀ time series,
       AuxElement.time self = Some time →
       AuxElement.dataTimeSeries self = Some series →
       size time = size series → own = []) ∧
    (AuxElement.time self = None ∨ AuxElement.dataTimeSeries self = None →
     own = []).
Proof.
  intros Hsuper. unfold AuxElement._validate, when. rewrite Hsuper.
  destruct (AuxElement.time self) as [time|],
    (AuxElement.dataTimeSeries self) as [series|]; simpl;
    try (exists []; repeat split; (done || naive_solver)).
  case_bool_decide as Hsize; simpl; eexists; (split; [reflexivity|]);
    repeat split; naive_solver.
Qed.

Lemma aux_time_check_witness :
  ∃ own,
    AuxElement._validate reports_nothing sample_aux = ([] ++ own, inr tt) ∧
    (∀ time series,
       AuxElement.time sample_aux = Some time →
       AuxElement.dataTimeSeries sample_aux = Some series →
       size time ≠ size series →
       own = [(AuxElement.location sample_aux +:+ "/time", "INVALID_TIME")]) ∧
    (∀ time series,
       AuxElement.time sample_aux = Some time →
       AuxElement.dataTimeSeries sample_aux = Some series →
       size time = size series → own = []) ∧
    (AuxElement.time sample_aux = None ∨
     AuxElement.dataTimeSeries sample_aux = None → own = []).
Proof. apply (aux_time_check reports_nothing sample_aux []). reflexivity. Defined.

(** The number of elements counts: a series of two columns beside a time
    vector of as many rows is flagged. *)
Example sample_aux_calls :
  AuxElement._validate reports_nothing sample_aux =
  ([("/nirs1/aux1/time", "INVALID_TIME")], inr tt).
Proof. reflexivity. Qed.

(** X7: for a stimulus whose [data] has at least two dimensions and whose
    [dataLabels] is present, after the generated checks have returned,
    [StimElement._validate] adds INVALID_STIM_DATALABELS at
    [location + '/dataLabels'] when the second dimension of [data] differs
    from the number of labels and nothing when they agree; it adds no
    INVALID_DATASET_SHAPE. *)
Theorem stim_label_check (super_validate : StimElement.t → V unit)
    (self : StimElement.t) (before : list Call) (data labels : ndarray)
    (rows columns : nat) (rest : list nat) :
  super_validate self = (before, inr tt) →
  StimElement.data self = Some data →
  StimElement.dataLabels self = Some labels →
  shape data = rows :: columns :: rest →
  ∃ own,
    StimElement._validate super_validate self = (before ++ own, inr tt) ∧
    (columns ≠ size labels →
     own = [(StimElement.location self +:+ "/dataLabels",
             "INVALID_STIM_DATALABELS")]) ∧
    (columns = size labels → own = []).
Proof.
  intros Hsuper Hdata Hlabels Hshape.
  unfold StimElement._validate, shape_at, when.
  rewrite Hsuper, Hdata, Hlabels, Hshape. simpl.
  case_bool_decide; simpl; eexists; (split; [reflexivity|]); by split.
Qed.

Lemma stim_label_check_witness :
  ∃ own,
    StimElement._validate reports_nothing sample_stim = ([] ++ own, inr tt) ∧
    (3 ≠ size (vector 2) →
     own = [(StimElement.location sample_stim +:+ "/dataLabels",
             "INVALID_STIM_DATALABELS")]) ∧
    (3 = size (vector 2) → own = []).
Proof.
  apply (stim_label_check reports_nothing sample_stim [] (matrix 10 3)
           (vector 2) 10 3 []); reflexivity.
Defined.

(** ** Probe *)

Section ProbeMore.

Variable names : list string.
Variable create : PyVal → Exn + H5Object.
Variable validate_string_array : H5Object → list nat → string.
Variable super_validate : Probe.t → V unit.

Implicit Type self : Probe.t.

(** The calls of [_validate] before the generated method, as one list. *)
Lemma probe_own_calls self :
  (Probe.validate_sourceLabels create validate_string_array self).2 = inr tt →
  ∃ code,
    Probe.validate_sourceLabels create validate_string_array self =
      ([(Probe.location self +:+ "/sourceLabels", code)], inr tt) ∧
    Probe._validate names create validate_string_array super_validate self =
      (((Probe.location self +:+ "/sourceLabels", code) ::
          (Probe.validate_positions self).1 ++
          (Probe.validate_coordinateSystem names self).1) ++
       (super_validate self).1,
       (super_validate self).2).
Proof.
  intros Hmarker.
  destruct (validate_sourceLabels_calls create validate_string_array self
              Hmarker) as [code Hblock].
  destruct (probe_validate_calls names create validate_string_array
              super_validate self Hmarker) as (code' & Hcalls & _).
  exists code. split; [done|]. rewrite Hcalls.
  unfold Probe._validate in Hcalls. rewrite Hblock in Hcalls.
  assert (code' = code) as ->.
  { destruct (Probe.validate_positions self) as [? [?|[]]];
      destruct (Probe.validate_coordinateSystem names self) as [? [?|[]]];
      destruct (super_validate self) as [? ?]; simpl in Hcalls; congruence. }
  f_equal. simpl. by rewrite <- app_assoc.
Qed.

(** X8: for a Probe in which the 2D pair is not complete and both 3D
    arrays are present, the calls that [_validate] makes before it hands
    over to the generated method carry OPTIONAL_DATASET_MISSING at
    [/sourcePos2D] and [/detectorPos2D], also for a 2D array that is
    present, and OK at [/sourcePos3D] and [/detectorPos3D]. *)
Theorem positions_3D_complete self :
  (Probe.validate_sourceLabels create validate_string_array self).2 = inr tt →
  ¬ (Probe.sourcePos2D self ≠ None ∧ Probe.detectorPos2D self ≠ None) →
  Probe.sourcePos3D self ≠ None →
  Probe.detectorPos3D self ≠ None →
  ∃ own,
    Probe._validate names create validate_string_array super_validate self =
      (own ++ (super_validate self).1, (super_validate self).2) ∧
    codes_at (Probe.location self +:+ "/sourcePos2D") own =
      ["OPTIONAL_DATASET_MISSING"] ∧
    codes_at (Probe.location self +:+ "/detectorPos2D") own =
      ["OPTIONAL_DATASET_MISSING"] ∧
    codes_at (Probe.location self +:+ "/sourcePos3D") own = ["OK"] ∧
    codes_at (Probe.location self +:+ "/detectorPos3D") own = ["OK"].
Proof.
  intros Hmarker H2 Hs3 Hd3.
  destruct (probe_own_calls self Hmarker) as (code & _ & Hcalls).
  eexists. split; [exact Hcalls|].
  rewrite !codes_at_cons_ne by (apply suffix_ne; discriminate).
  rewrite !codes_at_app, !(coordinateSystem_elsewhere names) by discriminate.
  unfold Probe.validate_positions.
  destruct (Probe.sourcePos2D self), (Probe.detectorPos2D self),
    (Probe.sourcePos3D self), (Probe.detectorPos3D self);
    try done; try (exfalso; apply H2; by split); simpl; by codes.
Qed.

(** X9: REQUIRED_DATASET_MISSING is reported for a position array only
    when that array is absent and neither pair is complete: among the calls
    that [_validate] makes before it hands over to the generated method,
    the code is at [/sourcePos2D] (at [/detectorPos2D]) exactly when that
    2D array is absent and the 3D pair is not complete, and at
    [/sourcePos3D] (at [/detectorPos3D]) exactly when that 3D array is
    absent and the 2D pair is not complete. *)
Theorem required_position_missing self :
  (Probe.validate_sourceLabels create validate_string_array self).2 = inr tt →
  ∃ own,
    Probe._validate names create validate_string_array super_validate self =
      (own ++ (super_validate self).1, (super_validate self).2) ∧
    ("REQUIRED_DATASET_MISSING" ∈
       codes_at (Probe.location self +:+ "/sourcePos2D") own ↔
     Probe.sourcePos2D self = None ∧
     ¬ (Probe.sourcePos3D self ≠ None ∧ Probe.detectorPos3D self ≠ None)) ∧
    ("REQUIRED_DATASET_MISSING" ∈
       codes_at (Probe.location self +:+ "/detectorPos2D") own ↔
     Probe.detectorPos2D self = None ∧
     ¬ (Probe.sourcePos3D self ≠ None ∧ Probe.detectorPos3D self ≠ None)) ∧
    ("REQUIRED_DATASET_MISSING" ∈
       codes_at (Probe.location self +:+ "/sourcePos3D") own ↔
     Probe.sourcePos3D self = None ∧
     ¬ (Probe.sourcePos2D self ≠ None ∧ Probe.detectorPos2D self ≠ None)) ∧
    ("REQUIRED_DATASET_MISSING" ∈
       codes_at (Probe.location self +:+ "/detectorPos3D") own ↔
     Probe.detectorPos3D self = None ∧
     ¬ (Probe.sourcePos2D self ≠ None ∧ Probe.detectorPos2D self ≠ None)).
Proof.
  intros Hmarker.
  destruct (probe_own_calls self Hmarker) as (code & _ & Hcalls).
  eexists. split; [exact Hcalls|].
  rewrite !codes_at_cons_ne by (apply suffix_ne; discriminate).
  rewrite !codes_at_app, !(coordinateSystem_elsewhere names) by discriminate.
  unfold Probe.validate_positions.
  destruct (Probe.sourcePos2D self), (Probe.detectorPos2D self),
    (Probe.sourcePos3D self), (Probe.detectorPos3D self);
    simpl; codes; simpl; rewrite !list_elem_of_singleton;
    repeat split; naive_solver.
Qed.


(** X11: when [_sourceLabels] is the marker of a dataset in the file and
    the group has no member [sourceLabels], [_validate] ends in the
    [KeyError] of [self._h['sourceLabels']], which the handler for
    [ValueError] does not catch: no call has been made, the positions and
    the coordinate system are not looked at and the generated method is not
    run. *)
Theorem stale_marker_raises self :
  Probe._sourceLabels self = PresentDataset →
  Probe._h self !! "sourceLabels" = None →
  Probe._validate names create validate_string_array super_validate self =
    ([], inl (KeyError "sourceLabels")).
Proof.
  intros Hmarker Hnone.
  unfold Probe._validate, Probe.validate_sourceLabels, Probe.h_getitem.
  by rewrite Hmarker, Hnone.
Qed.

End ProbeMore.

Lemma positions_3D_complete_witness :
  ∃ own,
    Probe._validate sample_names never_converts always_ok reports_nothing
      probe_3D_and_2D_source = (own ++ [], inr tt) ∧
    codes_at ("/nirs1/probe" +:+ "/sourcePos2D") own =
      ["OPTIONAL_DATASET_MISSING"] ∧
    codes_at ("/nirs1/probe" +:+ "/detectorPos2D") own =
      ["OPTIONAL_DATASET_MISSING"] ∧
    codes_at ("/nirs1/probe" +:+ "/sourcePos3D") own = ["OK"] ∧
    codes_at ("/nirs1/probe" +:+ "/detectorPos3D") own = ["OK"].
Proof.
  apply (positions_3D_complete sample_names never_converts always_ok
           reports_nothing probe_3D_and_2D_source).
  - reflexivity.
  - intros [_ H]. by apply H.
  - discriminate.
  - discriminate.
Defined.

Lemma required_position_missing_witness :
  ∃ own,
    Probe._validate sample_names never_converts always_ok reports_nothing
      probe_2D_source_only = (own ++ [], inr tt) ∧
    ("REQUIRED_DATASET_MISSING" ∈ codes_at ("/nirs1/probe" +:+ "/sourcePos2D") own ↔
     Probe.sourcePos2D probe_2D_source_only = None ∧
     ¬ (Probe.sourcePos3D probe_2D_source_only ≠ None ∧
        Probe.detectorPos3D probe_2D_source_only ≠ None)) ∧
    ("REQUIRED_DATASET_MISSING" ∈ codes_at ("/nirs1/probe" +:+ "/detectorPos2D") own ↔
     Probe.detectorPos2D probe_2D_source_only = None ∧
     ¬ (Probe.sourcePos3D probe_2D_source_only ≠ None ∧
        Probe.detectorPos3D probe_2D_source_only ≠ None)) ∧
    ("REQUIRED_DATASET_MISSING" ∈ codes_at ("/nirs1/probe" +:+ "/sourcePos3D") own ↔
     Probe.sourcePos3D probe_2D_source_only = None ∧
     ¬ (Probe.sourcePos2D probe_2D_source_only ≠ None ∧
        Probe.detectorPos2D probe_2D_source_only ≠ None)) ∧
    ("REQUIRED_DATASET_MISSING" ∈ codes_at ("/nirs1/probe" +:+ "/detectorPos3D") own ↔
     Probe.detectorPos3D probe_2D_source_only = None ∧
     ¬ (Probe.sourcePos2D probe_2D_source_only ≠ None ∧
        Probe.detectorPos2D probe_2D_source_only ≠ None)).
Proof.
  apply (required_position_missing sample_names never_converts always_ok
           reports_nothing probe_2D_source_only).
  reflexivity.
Defined.


(** A value that the helper turns down with [TypeError], with no dataset of
    that name in the file: nothing is reported, not even the positions. *)
Example unconvertible_labels_raise :
  Probe._validate sample_names rejects_with_TypeError always_ok
    reports_nothing probe_labels_not_in_file = ([], inl TypeError).
Proof. reflexivity. Qed.

Lemma stale_marker_raises_witness :
  Probe._validate sample_names never_converts always_ok reports_nothing
    probe_stale_marker = ([], inl (KeyError "sourceLabels")).
Proof.
  apply (stale_marker_raises sample_names never_converts always_ok
           reports_nothing probe_stale_marker); reflexivity.
Defined.

(** ** Snirf *)






(** The document with a probe whose labels have no dimension. *)
Example scalar_labels_snirf_raises :
  Snirf._validate reports_nothing scalar_labels_snirf = ([], inl IndexError).
Proof. reflexivity. Qed.

(** X13: the cross-reference pass adds nothing exactly when no index is
    out of range: after the generated checks have returned, and with every
    present [sourceLabels] having a first dimension, the pass makes no call
    if and only if, in every recording with a probe, every present
    [sourceIndex], [detectorIndex] and [wavelengthIndex] of every entry is
    at most the corresponding size.  The entries of a recording without a
    probe do not count. *)
Theorem no_index_flag_iff_within (super_validate : Snirf.t → V unit)
    (self : Snirf.t) (before : list Call) :
  super_validate self = (before, inr tt) →
  (∀ nirs probe,
     nirs ∈ Snirf.nirs self → NirsElement.probe nirs = Group probe →
     is_Some (source_count probe)) →
  ∃ own,
    Snirf._validate super_validate self = (before ++ own, inr tt) ∧
    (own = [] ↔
     ∀ nirs probe sources data ml,
       nirs ∈ Snirf.nirs self → NirsElement.probe nirs = Group probe →
       source_count probe = Some sources →
       data ∈ NirsElement.data nirs →
       ml ∈ DataElement.measurementList data →
       (∀ i, MeasurementListElement.sourceIndex ml = Some i →
             (i ≤ Z.of_nat sources)%Z) ∧
       (∀ i, MeasurementListElement.detectorIndex ml = Some i →
             (i ≤ Z.of_nat (detector_count probe))%Z) ∧
       (∀ i, MeasurementListElement.wavelengthIndex ml = Some i →
             (i ≤ Z.of_nat (wavelength_count probe))%Z)).
Proof.
  intros Hsuper Hsources.
  destruct (snirf_validate_calls super_validate self before Hsuper Hsources)
    as (own & Hrun & Hown).
  exists own. split; [done|]. split.
  - intros Hnil nirs probe sources data ml Hn Hprobe Hs Hd Hm.
    assert (Hnone : ∀ c, c ∉ (Snirf.check_indices sources (detector_count probe)
                               (wavelength_count probe) ml).1).
    { intros c Hc. assert (Hin : c ∈ own).
      { apply Hown. by exists nirs, probe, sources, data, ml. }
      rewrite Hnil in Hin. by apply elem_of_nil in Hin. }
    repeat split; intros i Hi;
      destruct (Z_le_gt_dec i (Z.of_nat sources));
      destruct (Z_le_gt_dec i (Z.of_nat (detector_count probe)));
      destruct (Z_le_gt_dec i (Z.of_nat (wavelength_count probe)));
      try done;
      exfalso; eapply Hnone; apply elem_of_check_indices;
      [left|left|left|left | right; left|right; left|right; left|right; left
       | right; right|right; right|right; right|right; right];
      (eexists; split; [exact Hi|split; [lia|reflexivity]]).
  - intros Hwithin. destruct own as [|c own]; [done|]. exfalso.
    destruct (proj1 (Hown c) (list_elem_of_here _ _))
      as (nirs & probe & sources & data & ml & Hn & Hprobe & Hs & Hd & Hm & Hc).
    destruct (Hwithin nirs probe sources data ml Hn Hprobe Hs Hd Hm)
      as (Hi & Hj & Hk).
    apply elem_of_check_indices in Hc
      as [(i & Hidx & Hlt & _)|[(i & Hidx & Hlt & _)|(i & Hidx & Hlt & _)]].
    + specialize (Hi i Hidx). lia.
    + specialize (Hj i Hidx). lia.
    + specialize (Hk i Hidx). lia.
Qed.

Lemma no_index_flag_iff_within_witness :
  ∃ own,
    Snirf._validate reports_nothing valid_snirf = ([] ++ own, inr tt) ∧
    (own = [] ↔
     ∀ nirs probe sources data ml,
       nirs ∈ Snirf.nirs valid_snirf → NirsElement.probe nirs = Group probe →
       source_count probe = Some sources →
       data ∈ NirsElement.data nirs →
       ml ∈ DataElement.measurementList data →
       (∀ i, MeasurementListElement.sourceIndex ml = Some i →
             (i ≤ Z.of_nat sources)%Z) ∧
       (∀ i, MeasurementListElement.detectorIndex ml = Some i →
             (i ≤ Z.of_nat (detector_count probe))%Z) ∧
       (∀ i, MeasurementListElement.wavelengthIndex ml = Some i →
             (i ≤ Z.of_nat (wavelength_count probe))%Z)).
Proof.
  apply (no_index_flag_iff_within reports_nothing valid_snirf []).
  - reflexivity.
  - intros nirs probe Hn Hprobe.
    apply list_elem_of_singleton in Hn as ->. injection Hprobe as <-.
    by exists 2.
Defined.

Example valid_snirf_calls :
  Snirf._validate reports_nothing valid_snirf = ([], inr tt).
Proof. reflexivity. Qed.

(** ** Saving, and the interface functions *)

Lemma endswith_refl (s : string) : endswith s s = true.
Proof. destruct s; simpl; try done; by rewrite bool_decide_eq_true_2. Qed.

Lemma endswith_append (a suffix : string) : endswith (a +:+ suffix) suffix = true.
Proof.
  induction a as [|c a IH].
  - change ("" +:+ suffix) with suffix. apply endswith_refl.
  - change (String c a +:+ suffix) with (String c (a +:+ suffix)).
    simpl. rewrite IH. apply orb_true_r.
Qed.

Lemma prefix_refl (a : string) : String.prefix a a = true.
Proof.
  induction a as [|c a IH]; simpl; [done|].
  by destruct (Ascii.ascii_dec c c).
Qed.

Lemma prefix_append (a b : string) : String.prefix a (a +:+ b) = true.
Proof.
  induction a as [|c a IH].
  - by destruct b.
  - change (String c a +:+ b) with (String c (a +:+ b)). simpl.
    by destruct (Ascii.ascii_dec c c).
Qed.

Section InterfaceFacts.

Variable _isfilelike : PyVal → bool.
Variable path_exists : string → bool.
Variable Snirf_init : string → string → Snirf.t.
Variable super_validate : Snirf.t → V unit.

(** X14: a bare name loads what the name with the suffix loads: for a
    path that does not end in [.snirf], [loadSnirf(path + '.snirf')] and
    [loadSnirf(path)] have the same outcome, the same file opened or the
    same [FileNotFoundError]. *)
Theorem loadSnirf_bare_name (path : string) (dynamic_loading enable_logging : bool) :
  endswith path ".snirf" = false →
  Interface.loadSnirf path_exists (path +:+ ".snirf")
    dynamic_loading enable_logging =
  Interface.loadSnirf path_exists path dynamic_loading enable_logging.
Proof.
  intros Hbare. unfold Interface.loadSnirf.
  by rewrite Hbare, endswith_append.
Qed.

(** X15: whenever [loadSnirf] returns, the file it opens exists, has a
    name that ends in [.snirf] and begins with the path given, and is
    opened in mode [r+] with the two options as given. *)
Theorem loadSnirf_opens (path : string) (dynamic logging : bool) (o : Opened) :
  Interface.loadSnirf path_exists path dynamic logging = inr o →
  path_exists (opened_path o) = true ∧
  endswith (opened_path o) ".snirf" = true ∧
  String.prefix path (opened_path o) = true ∧
  mode o = "r+" ∧
  dynamic_loading o = dynamic ∧
  enable_logging o = logging.
Proof.
  unfold Interface.loadSnirf.
  destruct (endswith path ".snirf") eqn:Hsuffix; simpl;
    match goal with |- context [path_exists ?p] =>
      destruct (path_exists p) eqn:Hexists end;
    intros [= <-]; simpl; repeat split; try done.
  - apply prefix_refl.
  - apply endswith_append.
  - apply prefix_append.
Qed.

(** X16: on a document that is not closed, [save] with a [str] as its
    first argument ignores the other arguments and gets as far as handing
    [_save] a target.  The target's name ends in [.snirf] and begins with
    the path given: the dots of the path are kept.  The target is the
    document's own file exactly when that name is the document's
    [filename], and otherwise a new file of that name, which h5py is asked
    to create. *)
Theorem save_to_path (self : Snirf.t) (h_filename path : string)
    (rest : list PyVal) :
  Interface.not_closed self →
  ∃ name,
    String.prefix path name = true ∧
    endswith name ".snirf" = true ∧
    Interface.save _isfilelike self h_filename (PyStr path :: rest) =
      inr (if bool_decide (Interface.filename self h_filename = Some name)
           then OwnFile else NewFile name).
Proof.
  intros _. unfold Interface.save.
  destruct (endswith path ".snirf") eqn:Hsuffix; simpl.
  - exists path. split; [apply prefix_refl|]. split; [done|].
    case_bool_decide as Hname; [|done].
    unfold Interface.filename, Interface.save_own_file in *.
    by destruct (Snirf._h self).
  - exists (path +:+ ".snirf"). split; [apply prefix_append|].
    split; [apply endswith_append|].
    case_bool_decide as Hname; [|done].
    unfold Interface.filename, Interface.save_own_file in *.
    by destruct (Snirf._h self).
Qed.

(** X17: on a document that is not closed, an argument that is neither a
    [str] nor file-like is ignored: [save] then does what [save()] does,
    which is to save to the document's own file, or to end in
    [AttributeError] when the document has no file ([self._h] is the empty
    dictionary). *)
Theorem save_in_place (self : Snirf.t) (h_filename : string)
    (first : PyVal) (rest : list PyVal) :
  Interface.not_closed self →
  (∀ path, first ≠ PyStr path) → _isfilelike first = false →
  Interface.save _isfilelike self h_filename (first :: rest) =
    Interface.save _isfilelike self h_filename [] ∧
  (Snirf._h self ≠ EmptyDict →
   Interface.save _isfilelike self h_filename [] = inr OwnFile) ∧
  (Snirf._h self = EmptyDict →
   Interface.save _isfilelike self h_filename [] =
     inl (AttributeError "'dict' object has no attribute 'file'")).
Proof.
  intros _ Hstr Hfile. unfold Interface.save, Interface.save_own_file.
  rewrite Hfile. split; [destruct first; try done; by destruct (Hstr s)|].
  by destruct (Snirf._h self).
Qed.

(** X18: [saveSnirf] ends in the [TypeError] of its own checks exactly
    when its first argument is not a [str] or its second is not a [Snirf],
    and the path is checked first: for a path that is not a [str] the
    message names the type of the path, whatever the second argument. *)
Theorem saveSnirf_type_checks (path : PyVal) (snirf : Object) :
  ((∃ msg, Interface.saveSnirf _isfilelike path snirf = inl (TypeErrorMsg msg)) ↔
   (∀ p, path ≠ PyStr p) ∨ (∃ value, snirf = Other value)) ∧
  ((∀ p, path ≠ PyStr p) →
   Interface.saveSnirf _isfilelike path snirf =
     inl (TypeErrorMsg ("path must be str, not " +:+ str_type path))) ∧
  (∀ p value, path = PyStr p → snirf = Other value →
   Interface.saveSnirf _isfilelike path snirf =
     inl (TypeErrorMsg ("snirf must be Snirf, not " +:+ str_type value))).
Proof.
  unfold Interface.saveSnirf. split; [|split].
  - destruct path as [| |p|];
      try (split; [intros _; left; by intros ?|intros _; by eexists]).
    destruct snirf as [self h_filename|value].
    + split.
      * intros [msg Hmsg].
        by destruct (Interface.save _isfilelike self h_filename [PyStr p]).
      * intros [Hp|[value [=]]]. by destruct (Hp p).
    + split; [intros _; right; by eexists|intros _; by eexists].
  - intros Hp. destruct path as [| |p|]; try done. by destruct (Hp p).
  - by intros p value -> ->.
Qed.

(** X19: [validateSnirf] and [loadSnirf] look for the same file: for a
    [str] path, one ends in a [FileNotFoundError] exactly when the other
    does, and with the same message. *)
Theorem validateSnirf_same_file (path msg : string)
    (dynamic_loading enable_logging : bool) :
  Interface.validateSnirf path_exists Snirf_init super_validate (PyStr path) =
    inl (FileNotFoundError msg) ↔
  Interface.loadSnirf path_exists path dynamic_loading enable_logging =
    inl (FileNotFoundError msg).
Proof.
  unfold Interface.validateSnirf, Interface.loadSnirf.
  destruct (negb (endswith path ".snirf"));
    match goal with |- context [path_exists ?p] =>
      destruct (path_exists p) end; try done;
    try match goal with |- context [Snirf._validate ?s ?d] =>
      destruct (Snirf._validate s d) as [calls [e|[]]] end;
    naive_solver.
Qed.

End InterfaceFacts.

Lemma loadSnirf_bare_name_witness :
  Interface.loadSnirf (only_file "rec.snirf") ("rec" +:+ ".snirf") false false =
  Interface.loadSnirf (only_file "rec.snirf") "rec" false false.
Proof. apply (loadSnirf_bare_name (only_file "rec.snirf") "rec"). reflexivity. Defined.

Lemma loadSnirf_opens_witness :
  only_file "rec.snirf" "rec.snirf" = true ∧
  endswith "rec.snirf" ".snirf" = true ∧
  String.prefix "rec" "rec.snirf" = true ∧
  "r+" = "r+" ∧ true = true ∧ false = false.
Proof.
  apply (loadSnirf_opens (only_file "rec.snirf") "rec" true false
           {| opened_path := "rec.snirf"; mode := "r+";
              dynamic_loading := true; enable_logging := false |}).
  reflexivity.
Defined.

Lemma save_in_place_witness :
  Interface.save nothing_filelike attached_snirf "rec.snirf" [PyInt 3] =
    Interface.save nothing_filelike attached_snirf "rec.snirf" [] ∧
  (Snirf._h attached_snirf ≠ EmptyDict →
   Interface.save nothing_filelike attached_snirf "rec.snirf" [] = inr OwnFile) ∧
  (Snirf._h attached_snirf = EmptyDict →
   Interface.save nothing_filelike attached_snirf "rec.snirf" [] =
     inl (AttributeError "'dict' object has no attribute 'file'")).
Proof.
  apply (save_in_place nothing_filelike attached_snirf "rec.snirf" (PyInt 3) []).
  - intros members. discriminate.
  - discriminate.
  - reflexivity.
Defined.

Lemma save_to_path_witness :
  ∃ name,
    String.prefix "run.1" name = true ∧
    endswith name ".snirf" = true ∧
    Interface.save nothing_filelike attached_snirf "rec.snirf"
      [PyStr "run.1"; PyInt 3] =
      inr (if bool_decide
                (Interface.filename attached_snirf "rec.snirf" = Some name)
           then OwnFile else NewFile name).
Proof.
  apply (save_to_path nothing_filelike attached_snirf "rec.snirf" "run.1"
           [PyInt 3]).
  intros members. discriminate.
Defined.

(** The dots of a path stay: the target of [save('run.1')] is a new file
    [run.1.snirf]. *)
Example save_keeps_dots :
  Interface.save nothing_filelike attached_snirf "rec.snirf" [PyStr "run.1"] =
  inr (NewFile "run.1.snirf").
Proof. reflexivity. Qed.
